(** * Welder Desktop: the repository view and the changes sidebar

    A shallow embedding of the two React components
    [app/src/ui/repository.tsx] (class [RepositoryView]) and the
    changes sidebar (class [ChangesSidebar]), with the properties of
    their specification stated and proved over the embedding.

    Conventions of the embedding:
    - a TypeScript interface is a [Record]; [T | null] and [T | undefined]
      are [option T]; a closed enum is an [Inductive];
    - [Map<string, V>] is stdpp's [gmap string V];
    - an array whose identity matters carries its address: [!==] between
      two arrays compares addresses, never contents;
    - event handlers run in a small monad [Eff] that records, in order,
      what is written to the console and which dispatcher methods are
      called, and that can abort with a thrown error. *)

From Stdlib Require Import ZArith String Ascii List Bool Lia.
From stdpp Require Import base option list strings gmap.
Import ListNotations.

Local Open Scope string_scope.
Local Open Scope list_scope.

(** ** JavaScript values with identity *)

(** Addresses of heap-allocated objects. *)
Definition ref := positive.

(** A [ReadonlyArray<A>] received from the outside: the code only reads its
    elements and compares its identity. *)
Record JsArray (A : Type) := mkArray {
  arr_ref : ref;
  arr_items : list A
}.
Arguments mkArray {A} _ _.
Arguments arr_ref {A} _.
Arguments arr_items {A} _.

(** [a === b] on two arrays. *)
Definition same_ref {A} (a b : JsArray A) : bool :=
  bool_decide (arr_ref a = arr_ref b).

(** [xs[i]] for a [number] index that is an integer: [undefined] outside
    [0 .. length-1]. *)
Definition js_index {A} (xs : list A) (i : Z) : option A :=
  if (i <? 0)%Z then None else xs !! Z.to_nat i.

(** Truthiness of [T | null | undefined] when [T] is an object type. *)
Definition truthy {A} (o : option A) : bool :=
  match o with Some _ => true | None => false end.

(** Truthiness of a string: only the empty string is falsy. *)
Definition truthy_string (s : string) : bool :=
  match s with EmptyString => false | String _ _ => true end.

(** ** Models *)

Record Account := {
  account_login : string;
  account_endpoint : string
}.

Record GitHubRepository := {
  ghr_name : string;
  ghr_endpoint : string
}.

Record Repository := {
  repo_id : Z;
  repo_path : string;
  repo_name : string;
  repo_gitHubRepository : option GitHubRepository
}.

Inductive DiffSelectionType := All | Partial | None_.

(** [file_selection] is what [file.selection.getSelectionType()] returns. *)
Record WorkingDirectoryFileChange := {
  file_path : string;
  file_id : string;
  file_selection : DiffSelectionType
}.

Record WorkingDirectoryStatus := {
  files : list WorkingDirectoryFileChange
}.

Inductive IDiff := DiffHandle (n : nat).

Record IChangesState := {
  workingDirectory : WorkingDirectoryStatus;
  selectedFileID : option string;
  diff : option IDiff;
  commitMessage : option string;
  contextualCommitMessage : option string;
  showCoAuthoredBy : bool
}.

Record CommitIdentity := {
  identity_name : string;
  email : string
}.

Record IGitHubUser := {
  user_login : string;
  user_email : string;
  user_avatarURL : string
}.

Record Commit := {
  sha : string;
  summary : string
}.

(** The section enum has the two members [Changes] and [History]; its
    declaration is in [lib/app-state]. A value that is neither (which only
    a cast can produce) is kept apart as [UnknownSection]. *)
Inductive RepositorySection :=
| Changes
| History
| UnknownSection (raw : Z).

(** Collaborators reached only through their identity. *)
Inductive Dispatcher := DispatcherHandle (n : nat).
Inductive IssuesStore := IssuesStoreHandle (n : nat).
Inductive GitHubUserStore := GitHubUserStoreHandle (n : nat).
Inductive AppStore := AppStoreHandle (n : nat).

#[global] Instance Account_eq_dec : EqDecision Account.
Proof. solve_decision. Defined.
#[global] Instance GitHubRepository_eq_dec : EqDecision GitHubRepository.
Proof. solve_decision. Defined.
#[global] Instance Repository_eq_dec : EqDecision Repository.
Proof. solve_decision. Defined.
#[global] Instance DiffSelectionType_eq_dec : EqDecision DiffSelectionType.
Proof. solve_decision. Defined.
#[global] Instance RepositorySection_eq_dec : EqDecision RepositorySection.
Proof. solve_decision. Defined.

(** ** Effects of a handler *)

Inductive Popup :=
| ConfirmDiscardChanges (repository : Repository)
                        (files : list WorkingDirectoryFileChange).

(** The dispatcher methods the two components call. The [file] of
    [changeChangesSelection] is what [files[row]] evaluated to, hence an
    [option]. *)
Inductive DispatcherCall :=
| changeRepositorySection (r : Repository) (section : RepositorySection)
| revealInFileManager (r : Repository) (path : string)
| revertCommit (r : Repository) (c : Commit)
| changeChangesSelection (r : Repository)
                         (file : option WorkingDirectoryFileChange)
| changeFileIncluded (r : Repository) (file : WorkingDirectoryFileChange)
                     (include : bool)
| changeIncludeAllFiles (r : Repository) (selectAll : bool)
| discardChanges (r : Repository) (files : list WorkingDirectoryFileChange)
| showPopup (p : Popup)
| ignore (r : Repository) (pattern : string).

Inductive Effect :=
| ConsoleLog (msg : string)
| ConsoleError (msg : string)
| Dispatch (d : Dispatcher) (c : DispatcherCall).

Inductive Outcome (A : Type) :=
| Returned (a : A)
| Thrown (msg : string).
Arguments Returned {A} _.
Arguments Thrown {A} _.

(** A computation: the effects it performed, in order, and how it ended. *)
Definition Eff (A : Type) : Type := list Effect * Outcome A.

#[global] Instance Eff_ret : MRet Eff := fun A a => ([], Returned a).

#[global] Instance Eff_bind : MBind Eff := fun A B k m =>
  match m with
  | (t, Returned a) => let '(t', o) := k a in (t ++ t', o)
  | (t, Thrown msg) => (t, Thrown msg)
  end.

Definition emit (e : Effect) : Eff unit := ([e], Returned tt).
Definition throw {A} (msg : string) : Eff A := ([], Thrown msg).

Definition trace {A} (m : Eff A) : list Effect := fst m.
Definition outcome {A} (m : Eff A) : Outcome A := snd m.

(** The dispatcher calls among the effects, and the console lines. *)
Definition dispatched (t : list Effect) : list DispatcherCall :=
  omap (fun e => match e with Dispatch _ c => Some c | _ => None end) t.

Definition logged (t : list Effect) : list string :=
  omap (fun e => match e with
                 | ConsoleLog s | ConsoleError s => Some s
                 | Dispatch _ _ => None
                 end) t.

(** Modelled from the spec: [assertNever] of [lib/fatal-error], which is not
    among the sources; an unrecognised value is a fatal error that halts
    the computation. *)
Definition assertNever {A} (message : string) : Eff A := throw message.

(** ** The changes sidebar *)

Module ChangesSidebar.

Record IChangesSidebarProps := {
  repository : Repository;
  changes : IChangesState;
  dispatcher : Dispatcher;
  commitAuthor : option CommitIdentity;
  branch : option string;
  gitHubUsers : gmap string IGitHubUser;
  emoji : gmap string string;
  mostRecentLocalCommit : option Commit;
  issuesStore : IssuesStore;
  availableWidth : Z;
  appStore : AppStore;
  isCommitting : bool;
  isPushPullFetchInProgress : bool;
  gitHubUserStore : GitHubUserStore;
  askForConfirmationOnDiscardChanges : bool;
  accounts : JsArray Account
}.

(** The three provider classes of [ui/autocompletion], each with its
    constructor arguments. The [account] of the user provider is the result
    of [Array.prototype.find], which may be [undefined]. *)
Inductive IAutocompletionProvider :=
| EmojiAutocompletionProvider (emoji : gmap string string)
| IssuesAutocompletionProvider (issuesStore : IssuesStore)
                               (repository : GitHubRepository)
                               (dispatcher : Dispatcher)
| UserAutocompletionProvider (gitHubUserStore : GitHubUserStore)
                             (repository : GitHubRepository)
                             (account : option Account).

(** The store of provider arrays. The component builds its array with an
    array literal and two [push]es, then keeps a reference to it. *)
Abbreviation Heap := (gmap ref (list IAutocompletionProvider)).

(** Evaluating an array literal allocates an object with a new identity. *)
Definition new_array (items : list IAutocompletionProvider) (h : Heap)
  : ref * Heap :=
  let r := fresh (dom h) in (r, <[r := items]> h).

(** [a.push(x)] mutates the array [a] refers to. *)
Definition push (a : ref) (x : IAutocompletionProvider) (h : Heap) : Heap :=
  alter (fun items => items ++ [x]) a h.

(** The instance: React's [this.props] and the private field. *)
Record Component := {
  this_props : IChangesSidebarProps;
  autocompletionProviders : option ref
}.

Definition receiveProps (this : Component) (props : IChangesSidebarProps)
    (h : Heap) : Component * Heap :=
  if negb (bool_decide (repo_id (repository props)
                        = repo_id (repository (this_props this))))
     || negb (truthy (autocompletionProviders this))
     || negb (same_ref (accounts props) (accounts (this_props this)))
  then
    let '(providers, h) :=
      new_array [EmojiAutocompletionProvider (emoji (this_props this))] h in
    let h :=
      match repo_gitHubRepository (repository props) with
      | Some gitHubRepository =>
          let h :=
            push providers
                 (IssuesAutocompletionProvider (issuesStore props)
                    gitHubRepository (dispatcher props)) h in
          let account :=
            List.find
              (fun a => bool_decide
                          (account_endpoint a = ghr_endpoint gitHubRepository))
              (arr_items (accounts (this_props this))) in
          push providers
               (UserAutocompletionProvider (gitHubUserStore props)
                  gitHubRepository account) h
      | None => h
      end in
    ({| this_props := this_props this;
        autocompletionProviders := Some providers |}, h)
  else (this, h).

(** The instance as [super(props)] leaves it. *)
Definition instantiate (props : IChangesSidebarProps) : Component :=
  {| this_props := props; autocompletionProviders := None |}.

Definition constructor (props : IChangesSidebarProps) (h : Heap)
  : Component * Heap :=
  receiveProps (instantiate props) props h.

Definition componentWillReceiveProps (this : Component)
    (nextProps : IChangesSidebarProps) (h : Heap) : Component * Heap :=
  receiveProps this nextProps h.

(** One property update as React performs it: the hook runs against the
    old [this.props], then [this.props] becomes [nextProps]. *)
Definition update (this : Component) (nextProps : IChangesSidebarProps)
    (h : Heap) : Component * Heap :=
  let '(this', h') := componentWillReceiveProps this nextProps h in
  ({| this_props := nextProps;
      autocompletionProviders := autocompletionProviders this' |}, h').

(** The array the component's field refers to. *)
Definition providers_of (w : Component * Heap)
  : option (list IAutocompletionProvider) :=
  match autocompletionProviders w.1 with
  | Some r => w.2 !! r
  | None => None
  end.

(** States an instance goes through: constructed, then updated any number
    of times, while the rest of the program allocates arrays of its own. *)
Inductive reachable : Component * Heap -> Prop :=
| reach_constructor props h :
    reachable (constructor props h)
| reach_update w nextProps :
    reachable w -> reachable (update w.1 nextProps w.2)
| reach_alloc w items :
    reachable w -> reachable (w.1, (new_array items w.2).2).

(** *** Handlers *)

Definition call (this : Component) (c : DispatcherCall) : Eff unit :=
  emit (Dispatch (dispatcher (this_props this)) c).

Definition onFileSelectionChanged (this : Component) (row : Z) : Eff unit :=
  let file := js_index (files (workingDirectory (changes (this_props this)))) row in
  call this (changeChangesSelection (repository (this_props this)) file).

Definition onIncludeChanged (this : Component) (path : string)
    (include : bool) : Eff unit :=
  let workingDirectory := workingDirectory (changes (this_props this)) in
  let file :=
    List.find (fun f => bool_decide (file_path f = path))
              (files workingDirectory) in
  match file with
  | None =>
      emit (ConsoleError
              (String.append
                 "unable to find working directory file to apply included change: "
                 path))
  | Some file =>
      call this (changeFileIncluded (repository (this_props this)) file include)
  end.

Definition onSelectAll (this : Component) (selectAll : bool) : Eff unit :=
  call this (changeIncludeAllFiles (repository (this_props this)) selectAll).

Definition onDiscardChanges (this : Component)
    (file : WorkingDirectoryFileChange) : Eff unit :=
  if negb (askForConfirmationOnDiscardChanges (this_props this)) then
    call this (discardChanges (repository (this_props this)) [file])
  else
    call this (showPopup
                 (ConfirmDiscardChanges (repository (this_props this)) [file])).

Definition onDiscardAllChanges (this : Component)
    (files : list WorkingDirectoryFileChange) : Eff unit :=
  if negb (askForConfirmationOnDiscardChanges (this_props this)) then
    call this (discardChanges (repository (this_props this)) files)
  else
    call this (showPopup
                 (ConfirmDiscardChanges (repository (this_props this)) files)).

Definition onIgnore (this : Component) (pattern : string) : Eff unit :=
  call this (ignore (repository (this_props this)) pattern).

Definition onRevealInFileManager (this : Component) (path : string)
  : Eff unit :=
  call this (revealInFileManager (repository (this_props this)) path).

Definition onToggleInclude (this : Component) (row : Z) : Eff unit :=
  let workingDirectory := workingDirectory (changes (this_props this)) in
  let file := js_index (files workingDirectory) row in
  match file with
  | None =>
      emit (ConsoleError "keyboard selection toggle despite no file - what?")
  | Some file =>
      let currentSelection := file_selection file in
      call this (changeFileIncluded (repository (this_props this)) file
                   (bool_decide (currentSelection = None_)))
  end.

(** The [source] of a row click; only its [kind] tag is inspected. *)
Record ClickSource := { kind : string }.

Definition onChangedItemClick (this : Component) (row : Z)
    (source : ClickSource) : Eff unit :=
  if bool_decide (kind source = "keyboard") then onToggleInclude this row
  else mret tt.

(** *** Rendering *)

(** The data properties of the [ChangesList] element that [render] returns
    inside its [div]; the callback properties are the handlers above. *)
Record ChangesListProps := {
  cl_dispatcher : Dispatcher;
  cl_appStore : AppStore;
  cl_repository : Repository;
  cl_workingDirectory : WorkingDirectoryStatus;
  cl_selectedFileID : option string;
  cl_commitAuthor : option CommitIdentity;
  cl_branch : option string;
  cl_gitHubUser : option IGitHubUser;
  cl_commitMessage : option string;
  cl_contextualCommitMessage : option string;
  cl_autocompletionProviders : option ref;
  cl_availableWidth : Z;
  cl_isCommitting : bool;
  cl_showCoAuthoredBy : bool
}.

Section Render.

(** [String.prototype.toLowerCase] of the JavaScript runtime. *)
Variable toLowerCase : string -> string.

Definition render (this : Component) : ChangesListProps :=
  let changesState := changes (this_props this) in
  let selectedFileID := selectedFileID changesState in
  let email :=
    match commitAuthor (this_props this) with
    | Some author => Some (email author)
    | None => None
    end in
  let user :=
    match email with
    | Some email =>
        if truthy_string email
        then gitHubUsers (this_props this) !! toLowerCase email
        else None
    | None => None
    end in
  {| cl_dispatcher := dispatcher (this_props this);
     cl_appStore := appStore (this_props this);
     cl_repository := repository (this_props this);
     cl_workingDirectory := workingDirectory changesState;
     cl_selectedFileID := selectedFileID;
     cl_commitAuthor := commitAuthor (this_props this);
     cl_branch := branch (this_props this);
     cl_gitHubUser := user;
     cl_commitMessage := commitMessage (changes (this_props this));
     cl_contextualCommitMessage :=
       contextualCommitMessage (changes (this_props this));
     cl_autocompletionProviders := autocompletionProviders this;
     cl_availableWidth := availableWidth (this_props this);
     cl_isCommitting := isCommitting (this_props this);
     cl_showCoAuthoredBy := showCoAuthoredBy (changes (this_props this)) |}.

End Render.

End ChangesSidebar.

(** ** The repository view *)

Module RepositoryView.

(** [const enum Tab { Changes = 0, History = 1 }] *)
Inductive Tab := Tab_Changes | Tab_History.

#[global] Instance Tab_eq_dec : EqDecision Tab.
Proof. solve_decision. Defined.

Record Branch := { branch_name : string }.

(** The tip of the current branch: only a tip of kind [TipState.Valid]
    carries a branch. *)
Inductive Tip :=
| TipValid (branch : Branch)
| TipNotValid.

Record IBranchesState := { tip : Tip }.

Inductive IHistoryState := HistoryStateHandle (n : nat).
Inductive ImageDiffType := ImageDiffTypeValue (n : nat).
Inductive Callback := CallbackHandle (n : nat).

Record IRepositoryModelState := {
  selectedSection : RepositorySection;
  changesState : IChangesState;
  historyState : IHistoryState;
  branchesState : IBranchesState;
  commitAuthor : option CommitIdentity;
  gitHubUsers : gmap string IGitHubUser;
  commits : gmap string Commit;
  localCommitSHAs : list string;
  isCommitting : bool;
  isPushPullFetchInProgress : bool
}.

Record IRepositoryProps := {
  repository : Repository;
  state : IRepositoryModelState;
  dispatcher : Dispatcher;
  emoji : gmap string string;
  sidebarWidth : Z;
  commitSummaryWidth : Z;
  issuesStore : IssuesStore;
  appStore : AppStore;
  gitHubUserStore : GitHubUserStore;
  onViewCommitOnGitHub : Callback;
  imageDiffType : ImageDiffType;
  askForConfirmationOnDiscardChanges : bool;
  accounts : JsArray Account
}.

(** *** Elements *)

Record HistorySidebarProps := {
  hs_repository : Repository;
  hs_dispatcher : Dispatcher;
  hs_history : IHistoryState;
  hs_gitHubUsers : gmap string IGitHubUser;
  hs_emoji : gmap string string;
  hs_commits : gmap string Commit;
  hs_localCommitSHAs : list string;
  hs_onViewCommitOnGitHub : Callback
}.

Record ChangesProps := {
  c_repository : Repository;
  c_dispatcher : Dispatcher;
  c_file : WorkingDirectoryFileChange;
  c_diff : IDiff;
  c_imageDiffType : ImageDiffType
}.

Record HistoryProps := {
  h_repository : Repository;
  h_dispatcher : Dispatcher;
  h_history : IHistoryState;
  h_emoji : gmap string string;
  h_commits : gmap string Commit;
  h_commitSummaryWidth : Z;
  h_gitHubUsers : gmap string IGitHubUser;
  h_imageDiffType : ImageDiffType
}.

Inductive StyleValue := Px (n : Z) | Css (s : string).

(** What a render method returns: a tree of elements. [E_false] and
    [E_null] are the JavaScript values [false] and [null] in child
    position, for which React renders nothing. *)
Inductive Element :=
| E_UiView (id : option string) (style : list (string * StyleValue))
           (children : list Element)
| E_TabBar (selectedIndex : Tab) (children : list Element)
| E_span (className : option string) (children : list Element)
| E_text (s : string)
| E_Octicon (className : string) (symbol : string)
| E_ChangesSidebar (props : ChangesSidebar.IChangesSidebarProps)
| E_HistorySidebar (props : HistorySidebarProps)
| E_NoChanges
| E_Changes (props : ChangesProps)
| E_History (props : HistoryProps)
| E_false
| E_null.

(** Does an element satisfying [p] occur anywhere in the tree? *)
Fixpoint occurs (p : Element -> bool) (e : Element) : bool :=
  p e ||
  match e with
  | E_UiView _ _ cs | E_TabBar _ cs | E_span _ cs => existsb (occurs p) cs
  | _ => false
  end.

(** The elements [renderContent] can return: the content panel. *)
Definition is_content (e : Element) : bool :=
  match e with
  | E_NoChanges | E_Changes _ | E_History _ => true
  | _ => false
  end.

Definition is_changes_sidebar (e : Element) : bool :=
  match e with E_ChangesSidebar _ => true | _ => false end.

Definition is_history_sidebar (e : Element) : bool :=
  match e with E_HistorySidebar _ => true | _ => false end.

(** [a && b] in child position with [a] a boolean: [b] is evaluated only
    when [a] is true, otherwise the value is [false]. *)
Definition js_and (a : bool) (b : Eff Element) : Eff Element :=
  if a then b else mret E_false.

(** *** Key events *)

Record KeyboardEvent := {
  key : string;
  ctrlKey : bool;
  shiftKey : bool;
  altKey : bool;
  metaKey : bool;
  defaultPrevented : bool
}.

Definition preventDefault (e : KeyboardEvent) : KeyboardEvent :=
  {| key := key e; ctrlKey := ctrlKey e; shiftKey := shiftKey e;
     altKey := altKey e; metaKey := metaKey e; defaultPrevented := true |}.

(** *** Methods; [this] is [this.props], the component has no other state *)

Definition call (this : IRepositoryProps) (c : DispatcherCall) : Eff unit :=
  emit (Dispatch (dispatcher this) c).

Definition renderTabs (this : IRepositoryProps) : Element :=
  let hasChanges :=
    (0 <? length (files (workingDirectory (changesState (state this)))))%nat in
  let selectedTab :=
    if bool_decide (selectedSection (state this) = Changes)
    then Tab_Changes else Tab_History in
  E_TabBar selectedTab
    [ E_span (Some "with-indicator")
        [ E_span None [E_text "Changes"];
          if hasChanges then E_Octicon "indicator" "primitiveDot" else E_null ];
      E_span None [E_text "History"] ].

Definition onTabClicked (this : IRepositoryProps) (tab : Tab)
    (props : IRepositoryProps) : Eff unit :=
  let section :=
    if bool_decide (tab = Tab_History) then History else Changes in
  call this (changeRepositorySection (repository props) section).

Definition componentWillMount (this : IRepositoryProps) : Eff unit :=
  emit (ConsoleLog "WTF");;
  onTabClicked this Tab_Changes this;;
  onTabClicked this Tab_History this.

Definition componentWillReceiveProps (this nextProps : IRepositoryProps)
  : Eff unit :=
  if negb (bool_decide (repo_name (repository this)
                        = repo_name (repository nextProps)))
  then onTabClicked this Tab_Changes nextProps;;
       onTabClicked this Tab_History nextProps
  else mret tt.

Definition renderChangesSidebar (this : IRepositoryProps) : Element :=
  let tip := tip (branchesState (state this)) in
  let branch := match tip with TipValid b => Some b | TipNotValid => None end in
  let localCommitSHAs := localCommitSHAs (state this) in
  let mostRecentLocalCommitSHA :=
    if (0 <? length localCommitSHAs)%nat then localCommitSHAs !! 0%nat
    else None in
  let mostRecentLocalCommit :=
    match mostRecentLocalCommitSHA with
    | Some s => if truthy_string s then commits (state this) !! s else None
    | None => None
    end in
  let availableWidth := (sidebarWidth this - 1)%Z in
  E_ChangesSidebar
    {| ChangesSidebar.repository := repository this;
       ChangesSidebar.dispatcher := dispatcher this;
       ChangesSidebar.changes := changesState (state this);
       ChangesSidebar.appStore := appStore this;
       ChangesSidebar.branch :=
         match branch with Some b => Some (branch_name b) | None => None end;
       ChangesSidebar.commitAuthor := commitAuthor (state this);
       ChangesSidebar.gitHubUsers := gitHubUsers (state this);
       ChangesSidebar.emoji := emoji this;
       ChangesSidebar.mostRecentLocalCommit := mostRecentLocalCommit;
       ChangesSidebar.issuesStore := issuesStore this;
       ChangesSidebar.availableWidth := availableWidth;
       ChangesSidebar.gitHubUserStore := gitHubUserStore this;
       ChangesSidebar.isCommitting := isCommitting (state this);
       ChangesSidebar.isPushPullFetchInProgress :=
         isPushPullFetchInProgress (state this);
       ChangesSidebar.askForConfirmationOnDiscardChanges :=
         askForConfirmationOnDiscardChanges this;
       ChangesSidebar.accounts := accounts this |}.

Definition renderHistorySidebar (this : IRepositoryProps) : Element :=
  E_HistorySidebar
    {| hs_repository := repository this;
       hs_dispatcher := dispatcher this;
       hs_history := historyState (state this);
       hs_gitHubUsers := gitHubUsers (state this);
       hs_emoji := emoji this;
       hs_commits := commits (state this);
       hs_localCommitSHAs := localCommitSHAs (state this);
       hs_onViewCommitOnGitHub := onViewCommitOnGitHub this |}.

Definition row_style : list (string * StyleValue) :=
  [("position", Css "relative"); ("display", Css "flex");
   ("flexDirection", Css "row")].

Definition changes_pane_style : list (string * StyleValue) :=
  [("left", Px 0); ("bottom", Px 0); ("top", Px 0);
   ("borderRight", Css "1px solid #24292e"); ("zIndex", Px 2);
   ("flex", Px 1)].

Definition history_pane_style : list (string * StyleValue) :=
  [("right", Px 0); ("bottom", Px 0); ("marginTop", Px 70);
   ("zIndex", Px 1); ("borderTop", Css "1px solid #e1e4e8");
   ("flex", Px 1)].

Definition renderSidebar (this : IRepositoryProps) : Element :=
  E_UiView (Some "sidebar") []
    [ renderTabs this;
      E_UiView None row_style
        [ E_UiView None changes_pane_style [renderChangesSidebar this];
          E_UiView None history_pane_style [renderHistorySidebar this] ] ].

Section Render.

(** [WorkingDirectoryStatus.findFileWithID] of [models/status], which is
    not among the sources. *)
Variable findFileWithID :
  WorkingDirectoryStatus -> string -> option WorkingDirectoryFileChange.

Definition renderContent (this : IRepositoryProps) : Eff Element :=
  let selectedSection := selectedSection (state this) in
  if bool_decide (selectedSection = Changes) then
    let changesState := changesState (state this) in
    let selectedFileID := selectedFileID changesState in
    let selectedFile :=
      match selectedFileID with
      | Some i =>
          if truthy_string i
          then findFileWithID (workingDirectory changesState) i
          else None
      | None => None
      end in
    let diff := diff changesState in
    match files (workingDirectory changesState), selectedFile, diff with
    | _ :: _, Some selectedFile, Some diff =>
        mret (E_Changes
                {| c_repository := repository this;
                   c_dispatcher := dispatcher this;
                   c_file := selectedFile;
                   c_diff := diff;
                   c_imageDiffType := imageDiffType this |})
    | _, _, _ => mret E_NoChanges
    end
  else if bool_decide (selectedSection = History) then
    mret (E_History
            {| h_repository := repository this;
               h_dispatcher := dispatcher this;
               h_history := historyState (state this);
               h_emoji := emoji this;
               h_commits := commits (state this);
               h_commitSummaryWidth := commitSummaryWidth this;
               h_gitHubUsers := gitHubUsers (state this);
               h_imageDiffType := imageDiffType this |})
  else
    assertNever "Unknown repository section".

Definition render (this : IRepositoryProps) : Eff Element :=
  let sidebar := renderSidebar this in
  content ← js_and false (renderContent this);
  mret (E_UiView (Some "repository") [] [sidebar; content]).

End Render.

Definition openRepository (this : IRepositoryProps) : Eff unit :=
  call this (revealInFileManager (repository this) "").

Definition onRevertCommit (this : IRepositoryProps) (commit : Commit)
  : Eff unit :=
  call this (revertCommit (repository this) commit).

Definition onKeyDown (this : IRepositoryProps) (e : KeyboardEvent)
  : Eff KeyboardEvent :=
  if ctrlKey e && bool_decide (key e = "Tab") then
    let section :=
      if bool_decide (selectedSection (state this) = History)
      then Changes else History in
    call this (changeRepositorySection (repository this) section);;
    mret (preventDefault e)
  else mret e.

End RepositoryView.

(** ** What the specification talks about *)

Module Spec.
Import ChangesSidebar.

(** An update must rebuild the provider list when the incoming repository
    id differs from the current one, or the incoming accounts array is
    another object than the current one, or there is no list yet. *)
Definition rebuild_condition (this : Component)
    (props : IChangesSidebarProps) : Prop :=
  repo_id (repository props) <> repo_id (repository (this_props this))
  \/ arr_ref (accounts props) <> arr_ref (accounts (this_props this))
  \/ autocompletionProviders this = None.

(** A step rebuilt the list: afterwards the field refers to an array object
    that did not exist before the step. *)
Definition rebuilt (before after : Component * Heap) : Prop :=
  exists r, autocompletionProviders after.1 = Some r
            /\ before.2 !! r = None
            /\ is_Some (after.2 !! r).

(** A step reused the list: the field refers to the same object, and no
    array was touched. *)
Definition reused (before after : Component * Heap) : Prop :=
  autocompletionProviders after.1 = autocompletionProviders before.1
  /\ after.2 = before.2.

Definition is_user_provider (p : IAutocompletionProvider) : bool :=
  match p with UserAutocompletionProvider _ _ _ => true | _ => false end.

(** The accounts list holds an account of the repository's endpoint. *)
Definition holds_matching_account (accts : list Account)
    (g : GitHubRepository) : Prop :=
  exists a, a ∈ accts /\ account_endpoint a = ghr_endpoint g.

(** No file of the working directory has this path. *)
Definition no_file_at_path (this : Component) (path : string) : Prop :=
  forall f, f ∈ files (workingDirectory (changes (this_props this))) ->
            file_path f <> path.

(** No file of the working directory is at this row. *)
Definition no_file_at_row (this : Component) (row : Z) : Prop :=
  (row < 0
   \/ Z.of_nat (length (files (workingDirectory (changes (this_props this)))))
      <= row)%Z.

(** The file [file] is at this row of the working directory. *)
Definition file_at_row (this : Component) (row : Z)
    (file : WorkingDirectoryFileChange) : Prop :=
  (0 <= row)%Z
  /\ files (workingDirectory (changes (this_props this))) !! Z.to_nat row
     = Some file.

(** ASCII case folding, the part of [toLowerCase] that e-mail addresses
    written in ASCII exercise. *)
Definition ascii_lower (c : ascii) : ascii :=
  let n := nat_of_ascii c in
  if ((65 <=? n) && (n <=? 90))%nat then ascii_of_nat (n + 32) else c.

Fixpoint ascii_toLowerCase (s : string) : string :=
  match s with
  | EmptyString => EmptyString
  | String c s' => String (ascii_lower c) (ascii_toLowerCase s')
  end.

End Spec.

(** ** Concrete inputs *)

Module Sample.
Import ChangesSidebar.

Definition dotcom : string := "https://api.github.com".

Definition welder_remote : GitHubRepository :=
  {| ghr_name := "Welder-Desktop"; ghr_endpoint := dotcom |}.

Definition welder : Repository :=
  {| repo_id := 1; repo_path := "/home/jane/welder"; repo_name := "welder";
     repo_gitHubRepository := Some welder_remote |}.

Definition scratch_repo : Repository :=
  {| repo_id := 2; repo_path := "/home/jane/scratch"; repo_name := "scratch";
     repo_gitHubRepository := None |}.

Definition jane_account : Account :=
  {| account_login := "jane"; account_endpoint := dotcom |}.

Definition readme : WorkingDirectoryFileChange :=
  {| file_path := "README.md"; file_id := "M+README.md";
     file_selection := None_ |}.

Definition main_ts : WorkingDirectoryFileChange :=
  {| file_path := "src/main.ts"; file_id := "M+src/main.ts";
     file_selection := Partial |}.

Definition no_changes : IChangesState :=
  {| workingDirectory := {| files := [] |};
     selectedFileID := None; diff := None;
     commitMessage := None; contextualCommitMessage := None;
     showCoAuthoredBy := false |}.

Definition two_changes : IChangesState :=
  {| workingDirectory := {| files := [readme; main_ts] |};
     selectedFileID := Some "M+README.md"; diff := Some (DiffHandle 0);
     commitMessage := None; contextualCommitMessage := None;
     showCoAuthoredBy := false |}.

Definition jane_profile : IGitHubUser :=
  {| user_login := "jane"; user_email := "jane@example.com";
     user_avatarURL := "https://avatars.example.com/jane" |}.

Definition jane : CommitIdentity :=
  {| identity_name := "Jane"; email := "Jane@Example.com" |}.

Definition anonymous : CommitIdentity :=
  {| identity_name := "nobody"; email := "" |}.

Definition sidebar_props (r : Repository) (c : IChangesState)
    (author : option CommitIdentity) (users : gmap string IGitHubUser)
    (emojis : gmap string string) (ask : bool) (accts : JsArray Account)
  : IChangesSidebarProps :=
  {| repository := r; changes := c; dispatcher := DispatcherHandle 0;
     commitAuthor := author; branch := Some "master";
     gitHubUsers := users; emoji := emojis;
     mostRecentLocalCommit := None; issuesStore := IssuesStoreHandle 0;
     availableWidth := 249; appStore := AppStoreHandle 0;
     isCommitting := false; isPushPullFetchInProgress := false;
     gitHubUserStore := GitHubUserStoreHandle 0;
     askForConfirmationOnDiscardChanges := ask; accounts := accts |}.

(** Signed out: a linked repository and an empty accounts array. *)
Definition signed_out : IChangesSidebarProps :=
  sidebar_props welder no_changes None ∅ ∅ true (mkArray 7%positive []).

(** Signed in: another accounts array, another emoji table. *)
Definition signed_in : IChangesSidebarProps :=
  sidebar_props welder two_changes (Some jane)
    {[ "jane@example.com" := jane_profile ]} {[ ":shipit:" := "shipit.png" ]}
    false (mkArray 8%positive [jane_account]).

Definition unlinked : IChangesSidebarProps :=
  sidebar_props scratch_repo no_changes None ∅ ∅ true (mkArray 7%positive []).

(** An author without e-mail, and a profile stored under the empty key. *)
Definition no_email : IChangesSidebarProps :=
  sidebar_props welder no_changes (Some anonymous)
    {[ "" := jane_profile ]} ∅ true (mkArray 7%positive []).

Definition view_props (s : RepositorySection) : RepositoryView.IRepositoryProps :=
  {| RepositoryView.repository := welder;
     RepositoryView.state :=
       {| RepositoryView.selectedSection := s;
          RepositoryView.changesState := two_changes;
          RepositoryView.historyState := RepositoryView.HistoryStateHandle 0;
          RepositoryView.branchesState :=
            {| RepositoryView.tip := RepositoryView.TipNotValid |};
          RepositoryView.commitAuthor := Some jane;
          RepositoryView.gitHubUsers := ∅;
          RepositoryView.commits := ∅;
          RepositoryView.localCommitSHAs := [];
          RepositoryView.isCommitting := false;
          RepositoryView.isPushPullFetchInProgress := false |};
     RepositoryView.dispatcher := DispatcherHandle 0;
     RepositoryView.emoji := ∅;
     RepositoryView.sidebarWidth := 250;
     RepositoryView.commitSummaryWidth := 250;
     RepositoryView.issuesStore := IssuesStoreHandle 0;
     RepositoryView.appStore := AppStoreHandle 0;
     RepositoryView.gitHubUserStore := GitHubUserStoreHandle 0;
     RepositoryView.onViewCommitOnGitHub := RepositoryView.CallbackHandle 0;
     RepositoryView.imageDiffType := RepositoryView.ImageDiffTypeValue 0;
     RepositoryView.askForConfirmationOnDiscardChanges := true;
     RepositoryView.accounts := mkArray 7%positive [] |}.

Definition key_event (k : string) (ctrl shift : bool)
  : RepositoryView.KeyboardEvent :=
  {| RepositoryView.key := k; RepositoryView.ctrlKey := ctrl;
     RepositoryView.shiftKey := shift; RepositoryView.altKey := false;
     RepositoryView.metaKey := false;
     RepositoryView.defaultPrevented := false |}.

Definition find_by_id (wd : WorkingDirectoryStatus) (i : string)
  : option WorkingDirectoryFileChange :=
  List.find (fun f => bool_decide (file_id f = i)) (files wd).

End Sample.

(** ** Runs, handler calls and mounting *)

Module Runs.
Import ChangesSidebar.

(** A run of property updates, delivered one after the other. *)
Fixpoint updates (w : Component * Heap) (ps : list IChangesSidebarProps)
  : Component * Heap :=
  match ps with
  | [] => w
  | p :: ps' => updates (update w.1 p w.2) ps'
  end.

(** The incoming properties have the repository id and the accounts array
    of the properties [p]. *)
Definition keeps_identity (p q : IChangesSidebarProps) : Prop :=
  repo_id (repository q) = repo_id (repository p)
  /\ arr_ref (accounts q) = arr_ref (accounts p).

(** The two shapes a provider list can have; an account bound to the user
    provider is of the endpoint of the provider's repository. *)
Definition well_shaped (items : list IAutocompletionProvider) : Prop :=
  (exists e, items = [EmojiAutocompletionProvider e])
  \/ (exists e s g d u account,
         items = [EmojiAutocompletionProvider e;
                  IssuesAutocompletionProvider s g d;
                  UserAutocompletionProvider u g account]
         /\ forall a, account = Some a ->
                      account_endpoint a = ghr_endpoint g).

(** One invocation of a handler of the sidebar by the list it renders. *)
Inductive HandlerCall :=
| FileSelectionChanged (row : Z)
| IncludeChanged (path : string) (include : bool)
| SelectAll (selectAll : bool)
| DiscardChanges (file : WorkingDirectoryFileChange)
| DiscardAllChanges (files : list WorkingDirectoryFileChange)
| Ignore (pattern : string)
| RevealInFileManager (path : string)
| RowClick (row : Z) (source : ClickSource).

Definition run_handler (this : Component) (c : HandlerCall) : Eff unit :=
  match c with
  | FileSelectionChanged row => onFileSelectionChanged this row
  | IncludeChanged path include => onIncludeChanged this path include
  | SelectAll selectAll => onSelectAll this selectAll
  | DiscardChanges file => onDiscardChanges this file
  | DiscardAllChanges files => onDiscardAllChanges this files
  | Ignore pattern => onIgnore this pattern
  | RevealInFileManager path => onRevealInFileManager this path
  | RowClick row source => onChangedItemClick this row source
  end.

(** The repository a dispatcher call is about. *)
Definition repository_of (c : DispatcherCall) : Repository :=
  match c with
  | changeRepositorySection r _ | revealInFileManager r _ | revertCommit r _
  | changeChangesSelection r _ | changeFileIncluded r _ _
  | changeIncludeAllFiles r _ | discardChanges r _ | ignore r _
  | showPopup (ConfirmDiscardChanges r _) => r
  end.

(** An effect of the sidebar that is in order: an error line, or a call to
    the dispatcher of the properties about the repository of the
    properties. *)
Definition sidebar_effect (this : Component) (e : Effect) : Prop :=
  match e with
  | ConsoleError _ => True
  | ConsoleLog _ => False
  | Dispatch d c =>
      d = dispatcher (this_props this)
      /\ repository_of c = repository (this_props this)
  end.

(** The properties of the [ChangesSidebar] element, with which React
    constructs the component. *)
Definition sidebar_props_of (e : RepositoryView.Element)
  : option IChangesSidebarProps :=
  match e with
  | RepositoryView.E_ChangesSidebar p => Some p
  | _ => None
  end.

(** Mounting the changes sidebar of a repository view. *)
Definition mount (this : RepositoryView.IRepositoryProps) (h : Heap)
  : option (Component * Heap) :=
  match sidebar_props_of (RepositoryView.renderChangesSidebar this) with
  | Some p => Some (constructor p h)
  | None => None
  end.

(** The dot that marks the Changes tab. *)
Definition is_indicator (e : RepositoryView.Element) : bool :=
  match e with
  | RepositoryView.E_Octicon "indicator" "primitiveDot" => true
  | _ => false
  end.

End Runs.

(** ** Properties of the changes sidebar *)

Module ChangesSidebarProofs.
Import ChangesSidebar Spec.

#[local] Instance rebuild_condition_dec this props :
  Decision (rebuild_condition this props).
Proof. unfold rebuild_condition. apply _. Defined.

(** The guard of [receiveProps] decides [rebuild_condition]. *)
Lemma guard_spec this props :
  negb (bool_decide (repo_id (repository props)
                     = repo_id (repository (this_props this))))
  || negb (truthy (autocompletionProviders this))
  || negb (same_ref (accounts props) (accounts (this_props this))) = true
  <-> rebuild_condition this props.
Proof.
  unfold rebuild_condition, same_ref.
  rewrite !orb_true_iff, !negb_true_iff, !bool_decide_eq_false.
  destruct (autocompletionProviders this) as [r|]; simpl; split.
  - intros [[H|H]|H]; auto; discriminate.
  - intros [H|[H|H]]; auto; discriminate.
  - intros _. auto.
  - intros _. auto.
Qed.

Lemma receiveProps_keep this props (h : Heap) :
  ~ rebuild_condition this props -> receiveProps this props h = (this, h).
Proof.
  intros Hn. unfold receiveProps.
  destruct (_ || _ || _) eqn:G; [|reflexivity].
  exfalso. apply Hn, guard_spec, G.
Qed.

(** The items the fresh array ends up with, read off the three statements
    that fill it. *)
Lemma receiveProps_build this props (h : Heap) :
  rebuild_condition this props ->
  exists items,
    receiveProps this props h
    = ({| this_props := this_props this;
          autocompletionProviders := Some (fresh (dom h)) |},
       <[fresh (dom h) := items]> h)
    /\ match repo_gitHubRepository (repository props) with
       | None => items = [EmojiAutocompletionProvider (emoji (this_props this))]
       | Some g =>
           items =
           [EmojiAutocompletionProvider (emoji (this_props this));
            IssuesAutocompletionProvider (issuesStore props) g
              (dispatcher props);
            UserAutocompletionProvider (gitHubUserStore props) g
              (List.find
                 (fun a => bool_decide (account_endpoint a = ghr_endpoint g))
                 (arr_items (accounts (this_props this))))]
       end.
Proof.
  intros Hc. apply guard_spec in Hc. unfold receiveProps. rewrite Hc.
  unfold new_array, push.
  destruct (repo_gitHubRepository (repository props)) as [g|].
  - eexists. split; [|reflexivity].
    rewrite !alter_insert_eq. reflexivity.
  - eexists. split; reflexivity.
Qed.

Lemma fresh_unallocated (h : Heap) : h !! fresh (dom h) = None.
Proof. apply not_elem_of_dom, is_fresh. Qed.

(** The field of a reachable instance refers to an allocated array. *)
Lemma reachable_allocated w :
  reachable w ->
  exists r, autocompletionProviders w.1 = Some r /\ is_Some (w.2 !! r).
Proof.
  induction 1 as [props h | [this h] nextProps _ IH | [this h] items _ IH].
  - unfold constructor.
    destruct (receiveProps_build (instantiate props) props h) as (items & E & _).
    { right; right; reflexivity. }
    rewrite E. simpl. eexists; split; [reflexivity|].
    rewrite lookup_insert_eq. eauto.
  - simpl in *. unfold update, componentWillReceiveProps.
    destruct (decide (rebuild_condition this nextProps)) as [Hc|Hn].
    + destruct (receiveProps_build this nextProps h Hc) as (items & E & _).
      rewrite E. simpl. eexists; split; [reflexivity|].
      rewrite lookup_insert_eq. eauto.
    + rewrite (receiveProps_keep _ _ _ Hn). simpl. exact IH.
  - simpl in *. destruct IH as (r & Hr & Hs). exists r. split; [exact Hr|].
    destruct (decide (fresh (dom h) = r)) as [->|Hne].
    + rewrite lookup_insert_eq. eauto.
    + rewrite lookup_insert_ne; auto.
Qed.

(** C1. Construction always builds the provider list. For every instance
    that was constructed and then updated any number of times, one more
    property update rebuilds the list if and only if the incoming
    repository id differs from the current one, or the incoming accounts
    array is another object than the current one, or no list exists yet;
    every other update leaves the field pointing at the same, untouched
    array object. *)
Theorem provider_list_rebuilt_iff :
  (forall props (h : Heap),
      rebuilt (instantiate props, h) (constructor props h))
  /\ (forall w nextProps,
         reachable w ->
         (rebuilt w (update w.1 nextProps w.2)
          <-> rebuild_condition w.1 nextProps)
         /\ (~ rebuild_condition w.1 nextProps ->
             reused w (update w.1 nextProps w.2))).
Proof.
  split.
  - intros props h. unfold constructor.
    destruct (receiveProps_build (instantiate props) props h) as (items & E & _).
    { right; right; reflexivity. }
    rewrite E. exists (fresh (dom h)). simpl.
    split; [reflexivity|]. split; [apply fresh_unallocated|].
    rewrite lookup_insert_eq. eauto.
  - intros [this h] nextProps Hreach. simpl.
    unfold update, componentWillReceiveProps.
    destruct (decide (rebuild_condition this nextProps)) as [Hc|Hn].
    + destruct (receiveProps_build this nextProps h Hc) as (items & E & _).
      rewrite E. split; [|tauto]. split; [tauto|]. intros _.
      exists (fresh (dom h)). simpl.
      split; [reflexivity|]. split; [apply fresh_unallocated|].
      rewrite lookup_insert_eq. eauto.
    + rewrite (receiveProps_keep _ _ _ Hn). split.
      * split; [|tauto]. intros (r & Hr & Hnone & _). simpl in *.
        destruct (reachable_allocated _ Hreach) as (r' & Hr' & Hs).
        simpl in *. rewrite Hr in Hr'. injection Hr' as ->.
        rewrite Hnone in Hs. destruct Hs; discriminate.
      * intros _. split; reflexivity.
Qed.

(** The signed-out sidebar is constructed, then receives the signed-in
    properties (another accounts array: rebuilt), then the same properties
    again (reused). *)
Lemma provider_list_rebuilt_iff_witness :
  let w1 := constructor Sample.signed_out ∅ in
  let w2 := update w1.1 Sample.signed_in w1.2 in
  reachable w2
  /\ rebuilt w1 w2
  /\ ~ rebuild_condition w2.1 Sample.signed_in
  /\ reused w2 (update w2.1 Sample.signed_in w2.2).
Proof.
  intros w1 w2.
  assert (R1 : reachable w1) by apply reach_constructor.
  assert (R2 : reachable w2) by exact (reach_update w1 _ R1).
  assert (N : ~ rebuild_condition w2.1 Sample.signed_in).
  { vm_compute. intros [H|[H|H]]; try discriminate; apply H; reflexivity. }
  split; [exact R2|]. split.
  - apply (proj2 provider_list_rebuilt_iff w1 Sample.signed_in R1).
    right; left. vm_compute. discriminate.
  - split; [exact N|].
    exact (proj2 (proj2 provider_list_rebuilt_iff w2 Sample.signed_in R2) N).
Defined.

Lemma find_account_spec (accts : list Account) (g : GitHubRepository) :
  let account :=
    List.find (fun a => bool_decide (account_endpoint a = ghr_endpoint g))
              accts in
  (is_Some account <-> holds_matching_account accts g)
  /\ (forall a, account = Some a ->
                a ∈ accts /\ account_endpoint a = ghr_endpoint g).
Proof.
  simpl. split.
  - split.
    + intros [a Ha]. apply find_some in Ha as [Hin Heq].
      exists a. split; [apply list_elem_of_In, Hin|].
      apply bool_decide_eq_true in Heq. exact Heq.
    + intros (a & Hin & Heq).
      destruct (List.find _ accts) as [b|] eqn:F; [eauto|].
      apply list_elem_of_In in Hin.
      pose proof (find_none _ _ F a Hin) as Hf. simpl in Hf.
      apply bool_decide_eq_false in Hf. contradiction.
  - intros a Ha. apply find_some in Ha as [Hin Heq].
    split; [apply list_elem_of_In, Hin|].
    apply bool_decide_eq_true in Heq. exact Heq.
Qed.

(** C2, as amended. Whenever the provider list is rebuilt: for a repository
    with no linked GitHub repository the list is exactly one emoji
    provider; for a repository with a linked GitHub repository it is
    exactly three providers, emoji, issues and user, in this order, the
    user provider always being there; what depends on the accounts is only
    the account the user provider is bound to: it is bound to an account
    exactly when the component's current accounts list holds one whose
    endpoint equals the linked repository's, and then to such an account. *)
Theorem rebuilt_provider_list_contents this props (h : Heap) :
  rebuild_condition this props ->
  exists items,
    providers_of (receiveProps this props h) = Some items
    /\ (repo_gitHubRepository (repository props) = None ->
        exists e, items = [EmojiAutocompletionProvider e])
    /\ (forall g,
           repo_gitHubRepository (repository props) = Some g ->
           exists e account,
             items = [EmojiAutocompletionProvider e;
                      IssuesAutocompletionProvider (issuesStore props) g
                        (dispatcher props);
                      UserAutocompletionProvider (gitHubUserStore props) g
                        account]
             /\ (is_Some account
                 <-> holds_matching_account
                       (arr_items (accounts (this_props this))) g)
             /\ (forall a, account = Some a ->
                           a ∈ arr_items (accounts (this_props this))
                           /\ account_endpoint a = ghr_endpoint g)).
Proof.
  intros Hc.
  destruct (receiveProps_build this props h Hc) as (items & E & Hitems).
  exists items. rewrite E. unfold providers_of. simpl.
  rewrite lookup_insert_eq. split; [reflexivity|].
  destruct (repo_gitHubRepository (repository props)) as [g0|]; split.
  - discriminate.
  - intros g [= <-]. subst items. do 2 eexists. split; [reflexivity|].
    apply find_account_spec.
  - intros _. eauto.
  - discriminate.
Qed.

Lemma rebuilt_provider_list_contents_witness :
  rebuild_condition (instantiate Sample.signed_in) Sample.signed_in
  /\ exists items,
      providers_of (constructor Sample.signed_in ∅) = Some items
      /\ length items = 3%nat.
Proof.
  assert (Hc : rebuild_condition (instantiate Sample.signed_in)
                                 Sample.signed_in)
    by (right; right; reflexivity).
  split; [exact Hc|].
  destruct (rebuilt_provider_list_contents _ _ ∅ Hc)
    as (items & Hp & _ & Hlinked).
  exists items. split; [exact Hp|].
  destruct (Hlinked Sample.welder_remote eq_refl) as (e & account & -> & _).
  reflexivity.
Defined.

(** C2 as stated fails: constructed for a linked repository while no
    account is signed in, the sidebar holds three providers, the third a
    user provider, although no account matches the repository's endpoint. *)
Lemma user_provider_without_account :
  exists items,
    providers_of (constructor Sample.signed_out ∅) = Some items
    /\ length items = 3%nat
    /\ existsb is_user_provider items = true
    /\ ~ holds_matching_account
          (arr_items (accounts Sample.signed_out)) Sample.welder_remote.
Proof.
  eexists. split; [vm_compute; reflexivity|].
  split; [reflexivity|]. split; [reflexivity|].
  intros (a & Hin & _). simpl in Hin. inversion Hin.
Qed.

(** C10. Whenever an update rebuilds the provider list, the emoji provider
    is constructed from the emoji map of the properties the component held
    before the update, and the account of the user provider is the one
    found in the accounts list of those same previous properties; the
    incoming emoji map and accounts list are not consulted. *)
Theorem rebuild_reads_previous_props this props (h : Heap) :
  rebuild_condition this props ->
  exists items,
    providers_of (receiveProps this props h) = Some items
    /\ head items = Some (EmojiAutocompletionProvider (emoji (this_props this)))
    /\ (forall g,
           repo_gitHubRepository (repository props) = Some g ->
           items !! 2%nat
           = Some (UserAutocompletionProvider (gitHubUserStore props) g
                     (List.find
                        (fun a => bool_decide
                                    (account_endpoint a = ghr_endpoint g))
                        (arr_items (accounts (this_props this)))))).
Proof.
  intros Hc.
  destruct (receiveProps_build this props h Hc) as (items & E & Hitems).
  exists items. rewrite E. unfold providers_of. simpl.
  rewrite lookup_insert_eq. split; [reflexivity|].
  destruct (repo_gitHubRepository (repository props)) as [g0|];
    subst items; split; try reflexivity.
  - intros g [= <-]. reflexivity.
  - discriminate.
Qed.

(** The signed-out sidebar receives the signed-in properties: the rebuilt
    list carries the old, empty emoji map and no account, although the
    incoming properties have an emoji and a matching account. *)
Lemma rebuild_reads_previous_props_witness :
  let w := constructor Sample.signed_out ∅ in
  rebuild_condition w.1 Sample.signed_in
  /\ emoji Sample.signed_in <> emoji Sample.signed_out
  /\ exists items,
      providers_of (update w.1 Sample.signed_in w.2) = Some items
      /\ head items = Some (EmojiAutocompletionProvider ∅)
      /\ items !! 2%nat
         = Some (UserAutocompletionProvider (GitHubUserStoreHandle 0)
                   Sample.welder_remote None).
Proof.
  intros w.
  assert (Hc : rebuild_condition w.1 Sample.signed_in).
  { right; left. vm_compute. discriminate. }
  split; [exact Hc|]. split.
  { intros Heq.
    assert (L : emoji Sample.signed_in !! ":shipit:"
                = emoji Sample.signed_out !! ":shipit:") by (rewrite Heq; reflexivity).
    vm_compute in L. discriminate. }
  destruct (rebuild_reads_previous_props w.1 Sample.signed_in w.2 Hc)
    as (items & Hp & Hhead & Huser).
  exists items. split.
  - unfold update, componentWillReceiveProps.
    unfold providers_of in *.
    destruct (receiveProps w.1 Sample.signed_in w.2) as [this' h'].
    exact Hp.
  - split; [exact Hhead|]. exact (Huser Sample.welder_remote eq_refl).
Defined.

(** *** Lookups *)

Lemma js_index_miss this row :
  no_file_at_row this row ->
  js_index (files (workingDirectory (changes (this_props this)))) row = None.
Proof.
  unfold no_file_at_row, js_index. intros [Hneg|Hbig].
  - destruct (Z.ltb_spec row 0); [reflexivity|lia].
  - destruct (Z.ltb_spec row 0); [reflexivity|].
    apply lookup_ge_None. lia.
Qed.

Lemma js_index_hit this row file :
  file_at_row this row file ->
  js_index (files (workingDirectory (changes (this_props this)))) row
  = Some file.
Proof.
  unfold file_at_row, js_index. intros [Hpos Hlook].
  destruct (Z.ltb_spec row 0); [lia|exact Hlook].
Qed.

Lemma find_path_miss this path :
  no_file_at_path this path ->
  List.find (fun f => bool_decide (file_path f = path))
            (files (workingDirectory (changes (this_props this)))) = None.
Proof.
  unfold no_file_at_path.
  induction (files (workingDirectory (changes (this_props this))))
    as [|f fs IH]; intros Hno; [reflexivity|].
  simpl. rewrite bool_decide_eq_false_2.
  - apply IH. intros f' Hin. apply Hno. right. exact Hin.
  - apply Hno. left.
Qed.

(** [onFileSelectionChanged] has no guard: whatever the row, its one
    effect is the dispatcher's [changeChangesSelection] with what
    [files[row]] evaluated to. *)
Lemma selection_change_always_dispatches this row :
  onFileSelectionChanged this row
  = ([Dispatch (dispatcher (this_props this))
        (changeChangesSelection (repository (this_props this))
           (js_index (files (workingDirectory (changes (this_props this))))
                     row))],
     Returned tt).
Proof. reflexivity. Qed.

(** C3, as amended. An inclusion toggle that finds no file, whether by
    path in [onIncludeChanged] or by row in [onToggleInclude], writes one
    line to the error console, calls no dispatcher method and returns
    normally. *)
Theorem lookup_miss_handling this :
  (forall path include,
      no_file_at_path this path ->
      onIncludeChanged this path include
      = ([ConsoleError
            (String.append
               "unable to find working directory file to apply included change: "
               path)],
         Returned tt))
  /\ (forall row,
         no_file_at_row this row ->
         onToggleInclude this row
         = ([ConsoleError "keyboard selection toggle despite no file - what?"],
            Returned tt)).
Proof.
  split.
  - intros path include Hno. unfold onIncludeChanged.
    rewrite (find_path_miss _ _ Hno). reflexivity.
  - intros row Hno. unfold onToggleInclude.
    rewrite (js_index_miss _ _ Hno). reflexivity.
Qed.

Lemma lookup_miss_handling_witness :
  let this := instantiate Sample.signed_in in
  no_file_at_path this "LICENSE"
  /\ no_file_at_row this 2
  /\ dispatched (trace (onIncludeChanged this "LICENSE" true)) = []
  /\ logged (trace (onIncludeChanged this "LICENSE" true))
     = ["unable to find working directory file to apply included change: LICENSE"]
  /\ dispatched (trace (onToggleInclude this 2)) = []
  /\ logged (trace (onToggleInclude this 2))
     = ["keyboard selection toggle despite no file - what?"].
Proof.
  intros this.
  assert (Hp : no_file_at_path this "LICENSE").
  { intros f Hin. simpl in Hin.
    apply elem_of_cons in Hin as [->|Hin]; [discriminate|].
    apply elem_of_cons in Hin as [->|Hin]; [discriminate|].
    inversion Hin. }
  assert (Hr : no_file_at_row this 2) by (right; simpl; lia).
  destruct (lookup_miss_handling this) as (Hinc & Htog).
  split; [exact Hp|]. split; [exact Hr|].
  rewrite (Hinc "LICENSE" true Hp), (Htog 2%Z Hr).
  repeat split.
Defined.

(** C3 as stated fails for [onFileSelectionChanged]: on an empty working
    directory, row 0 holds no file, yet the dispatcher is called and
    nothing is logged. *)
Lemma selection_change_miss_not_dropped :
  let this := instantiate Sample.signed_out in
  no_file_at_row this 0
  /\ dispatched (trace (onFileSelectionChanged this 0))
     = [changeChangesSelection Sample.welder None]
  /\ logged (trace (onFileSelectionChanged this 0)) = [].
Proof.
  intros this. split; [right; simpl; lia|]. split; reflexivity.
Qed.

(** C5. A discard request, for one file or for a list of files: when
    [askForConfirmationOnDiscardChanges] is false the only effect is the
    dispatcher's [discardChanges] with exactly the target files; when it is
    true the only effect is [showPopup] with a confirm-discard popup
    carrying exactly the target files, and nothing is discarded. *)
Theorem discard_respects_confirmation this file files :
  (askForConfirmationOnDiscardChanges (this_props this) = false ->
   onDiscardChanges this file
   = ([Dispatch (dispatcher (this_props this))
         (discardChanges (repository (this_props this)) [file])],
      Returned tt)
   /\ onDiscardAllChanges this files
      = ([Dispatch (dispatcher (this_props this))
            (discardChanges (repository (this_props this)) files)],
         Returned tt))
  /\ (askForConfirmationOnDiscardChanges (this_props this) = true ->
      onDiscardChanges this file
      = ([Dispatch (dispatcher (this_props this))
            (showPopup
               (ConfirmDiscardChanges (repository (this_props this)) [file]))],
         Returned tt)
      /\ onDiscardAllChanges this files
         = ([Dispatch (dispatcher (this_props this))
               (showPopup
                  (ConfirmDiscardChanges (repository (this_props this)) files))],
            Returned tt)).
Proof.
  unfold onDiscardChanges, onDiscardAllChanges.
  split; intros ->; split; reflexivity.
Qed.

Lemma discard_respects_confirmation_witness :
  let direct := instantiate Sample.signed_in in
  let asking := instantiate Sample.signed_out in
  askForConfirmationOnDiscardChanges (this_props direct) = false
  /\ askForConfirmationOnDiscardChanges (this_props asking) = true
  /\ dispatched (trace (onDiscardAllChanges direct
                          [Sample.readme; Sample.main_ts]))
     = [discardChanges Sample.welder [Sample.readme; Sample.main_ts]]
  /\ dispatched (trace (onDiscardChanges asking Sample.readme))
     = [showPopup (ConfirmDiscardChanges Sample.welder [Sample.readme])].
Proof.
  intros direct asking.
  split; [reflexivity|]. split; [reflexivity|]. split.
  - destruct (discard_respects_confirmation direct Sample.readme
                [Sample.readme; Sample.main_ts]) as [Hd _].
    destruct (Hd eq_refl) as [_ E]. rewrite E. reflexivity.
  - destruct (discard_respects_confirmation asking Sample.readme [])
      as [_ Ha].
    destruct (Ha eq_refl) as [E _]. rewrite E. reflexivity.
Defined.

(** C6. A keyboard-sourced click on a row that holds a file asks the
    dispatcher, in its only effect, to set that file's inclusion: to true
    when the file's selection is "none", to false for any other selection
    (partial or all). *)
Theorem keyboard_toggle_inclusion this row file source :
  kind source = "keyboard" ->
  file_at_row this row file ->
  (file_selection file = None_ ->
   onChangedItemClick this row source
   = ([Dispatch (dispatcher (this_props this))
         (changeFileIncluded (repository (this_props this)) file true)],
      Returned tt))
  /\ (file_selection file <> None_ ->
      onChangedItemClick this row source
      = ([Dispatch (dispatcher (this_props this))
            (changeFileIncluded (repository (this_props this)) file false)],
         Returned tt)).
Proof.
  intros Hk Hrow. unfold onChangedItemClick, onToggleInclude.
  rewrite (bool_decide_eq_true_2 _ Hk), (js_index_hit _ _ _ Hrow).
  split; intros Hsel.
  - rewrite (bool_decide_eq_true_2 _ Hsel). reflexivity.
  - rewrite (bool_decide_eq_false_2 _ Hsel). reflexivity.
Qed.

Lemma keyboard_toggle_inclusion_witness :
  let this := instantiate Sample.signed_in in
  let keyboard := {| kind := "keyboard" |} in
  file_at_row this 0 Sample.readme
  /\ file_at_row this 1 Sample.main_ts
  /\ dispatched (trace (onChangedItemClick this 0 keyboard))
     = [changeFileIncluded Sample.welder Sample.readme true]
  /\ dispatched (trace (onChangedItemClick this 1 keyboard))
     = [changeFileIncluded Sample.welder Sample.main_ts false].
Proof.
  intros this keyboard.
  assert (H0 : file_at_row this 0 Sample.readme)
    by (split; [lia|reflexivity]).
  assert (H1 : file_at_row this 1 Sample.main_ts)
    by (split; [lia|reflexivity]).
  split; [exact H0|]. split; [exact H1|]. split.
  - destruct (keyboard_toggle_inclusion this 0%Z Sample.readme keyboard
                eq_refl H0) as [E _].
    rewrite (E eq_refl). reflexivity.
  - destruct (keyboard_toggle_inclusion this 1%Z Sample.main_ts keyboard
                eq_refl H1) as [_ E].
    rewrite E; [reflexivity|discriminate].
Defined.

(** C8, as amended. Whatever [toLowerCase] computes: with no author
    identity, or with an author whose e-mail is the empty string, the
    sidebar shows no profile; with an author whose e-mail is not empty, it
    shows what [gitHubUsers] holds at the lower-cased e-mail, that is the
    profile when the key is present and none when it is absent. *)
Theorem resolved_user_profile (toLowerCase : string -> string) this :
  (commitAuthor (this_props this) = None ->
   cl_gitHubUser (render toLowerCase this) = None)
  /\ (forall author,
         commitAuthor (this_props this) = Some author ->
         email author = "" ->
         cl_gitHubUser (render toLowerCase this) = None)
  /\ (forall author,
         commitAuthor (this_props this) = Some author ->
         email author <> "" ->
         cl_gitHubUser (render toLowerCase this)
         = gitHubUsers (this_props this) !! toLowerCase (email author)).
Proof.
  unfold render. simpl. split; [|split].
  - intros ->. reflexivity.
  - intros author -> ->. reflexivity.
  - intros author -> Hne.
    destruct (email author); [contradiction|reflexivity].
Qed.

(** The author "Jane@Example.com" and a profile stored under
    "jane@example.com". *)
Lemma resolved_user_profile_witness :
  let this := instantiate Sample.signed_in in
  commitAuthor (this_props this) = Some Sample.jane
  /\ email Sample.jane <> ""
  /\ ascii_toLowerCase (email Sample.jane) = "jane@example.com"
  /\ cl_gitHubUser (render ascii_toLowerCase this) = Some Sample.jane_profile.
Proof.
  intros this.
  split; [reflexivity|]. split; [discriminate|]. split; [reflexivity|].
  destruct (resolved_user_profile ascii_toLowerCase this) as (_ & _ & H).
  rewrite (H Sample.jane eq_refl); [|discriminate].
  vm_compute. reflexivity.
Defined.

(** C8 as stated fails for the empty e-mail: the key, the lower-cased
    e-mail, is present in [gitHubUsers], and yet no profile is shown. *)
Lemma empty_email_profile_not_resolved :
  let this := instantiate Sample.no_email in
  commitAuthor (this_props this) = Some Sample.anonymous
  /\ gitHubUsers (this_props this)
       !! ascii_toLowerCase (email Sample.anonymous)
     = Some Sample.jane_profile
  /\ cl_gitHubUser (render ascii_toLowerCase this) = None.
Proof.
  intros this. split; [reflexivity|]. split; [|reflexivity].
  vm_compute. reflexivity.
Qed.

End ChangesSidebarProofs.

(** ** Properties of the repository view *)

Module RepositoryViewProofs.
Import RepositoryView.

Section WithFindFile.

Variable findFileWithID :
  WorkingDirectoryStatus -> string -> option WorkingDirectoryFileChange.

(** [render] never evaluates [renderContent]. *)
Lemma render_unfold this :
  render findFileWithID this
  = ([], Returned (E_UiView (Some "repository") []
                     [renderSidebar this; E_false])).
Proof. reflexivity. Qed.

(** C4, as amended. [renderContent], when it is evaluated with a
    selected section that is neither Changes nor History, halts with the
    fatal error "Unknown repository section" and has no other effect.
    [render] however guards its call of [renderContent] with [false &&],
    so for every selected section, recognised or not, rendering
    [RepositoryView] returns normally. *)
Theorem unknown_section_handling this :
  (selectedSection (state this) <> Changes ->
   selectedSection (state this) <> History ->
   renderContent findFileWithID this
   = ([], Thrown "Unknown repository section"))
  /\ (exists element,
         render findFileWithID this = ([], Returned element)).
Proof.
  split.
  - intros Hc Hh. unfold renderContent.
    rewrite (bool_decide_eq_false_2 _ Hc), (bool_decide_eq_false_2 _ Hh).
    reflexivity.
  - eexists. apply render_unfold.
Qed.

(** C9. Every rendering of [RepositoryView] returns normally; under the
    tab bar it has one row holding the changes sidebar in its left pane
    and the history sidebar in its right pane, built from the current
    properties whatever the selected section is; in the place of the
    content panel is the value [false], and no content element occurs
    anywhere in the output. *)
Theorem both_sidebars_no_content this :
  exists root tabs,
    render findFileWithID this = ([], Returned root)
    /\ root
       = E_UiView (Some "repository") []
           [ E_UiView (Some "sidebar") []
               [ tabs;
                 E_UiView None row_style
                   [ E_UiView None changes_pane_style
                       [renderChangesSidebar this];
                     E_UiView None history_pane_style
                       [renderHistorySidebar this] ] ];
             E_false ]
    /\ is_changes_sidebar (renderChangesSidebar this) = true
    /\ is_history_sidebar (renderHistorySidebar this) = true
    /\ In ("flexDirection", Css "row") row_style
    /\ occurs is_changes_sidebar root = true
    /\ occurs is_history_sidebar root = true
    /\ occurs is_content root = false.
Proof.
  exists (E_UiView (Some "repository") [] [renderSidebar this; E_false]),
         (renderTabs this).
  split; [apply render_unfold|]. split; [reflexivity|].
  split; [reflexivity|]. split; [reflexivity|].
  split; [simpl; tauto|].
  split; [|split].
  - unfold renderSidebar, renderTabs. simpl.
    destruct (0 <? _)%nat; reflexivity.
  - unfold renderSidebar, renderTabs. simpl.
    destruct (0 <? _)%nat; reflexivity.
  - unfold renderSidebar, renderTabs. simpl.
    destruct (0 <? _)%nat; reflexivity.
Qed.

End WithFindFile.

(** C7. A key event with the control key down and key "Tab" (the shift key
    is not looked at): when History is the selected section the only effect
    is a change-section request to Changes, when Changes is selected a
    change-section request to History, and in both cases the default action
    is prevented. Every other key event has no effect at all and is handed
    back untouched. *)
Theorem ctrl_tab_toggles_section this e :
  (ctrlKey e = true -> key e = "Tab" ->
   (selectedSection (state this) = History ->
    onKeyDown this e
    = ([Dispatch (dispatcher this)
          (changeRepositorySection (repository this) Changes)],
       Returned (preventDefault e)))
   /\ (selectedSection (state this) = Changes ->
       onKeyDown this e
       = ([Dispatch (dispatcher this)
             (changeRepositorySection (repository this) History)],
          Returned (preventDefault e))))
  /\ (~ (ctrlKey e = true /\ key e = "Tab") ->
      onKeyDown this e = ([], Returned e)).
Proof.
  unfold onKeyDown. split.
  - intros -> Hk. rewrite (bool_decide_eq_true_2 _ Hk). simpl.
    split; intros ->; reflexivity.
  - intros Hn. destruct (ctrlKey e) eqn:Hc; [|reflexivity].
    rewrite bool_decide_eq_false_2; [reflexivity|].
    intros Hk. apply Hn. split; [reflexivity|exact Hk].
Qed.

Lemma ctrl_tab_toggles_section_witness :
  let on_history := Sample.view_props History in
  let on_changes := Sample.view_props Changes in
  let ctrl_tab := Sample.key_event "Tab" true false in
  let plain_tab := Sample.key_event "Tab" false false in
  ctrlKey ctrl_tab = true /\ key ctrl_tab = "Tab"
  /\ ~ (ctrlKey plain_tab = true /\ key plain_tab = "Tab")
  /\ dispatched (trace (onKeyDown on_history ctrl_tab))
     = [changeRepositorySection Sample.welder Changes]
  /\ dispatched (trace (onKeyDown on_changes ctrl_tab))
     = [changeRepositorySection Sample.welder History]
  /\ onKeyDown on_history plain_tab = ([], Returned plain_tab).
Proof.
  intros on_history on_changes ctrl_tab plain_tab.
  assert (Hn : ~ (ctrlKey plain_tab = true /\ key plain_tab = "Tab"))
    by (intros [H _]; discriminate).
  split; [reflexivity|]. split; [reflexivity|]. split; [exact Hn|].
  split; [|split].
  - destruct (ctrl_tab_toggles_section on_history ctrl_tab) as [H _].
    destruct (H eq_refl eq_refl) as [E _]. rewrite (E eq_refl). reflexivity.
  - destruct (ctrl_tab_toggles_section on_changes ctrl_tab) as [H _].
    destruct (H eq_refl eq_refl) as [_ E]. rewrite (E eq_refl). reflexivity.
  - exact (proj2 (ctrl_tab_toggles_section on_history plain_tab) Hn).
Defined.

Lemma unknown_section_handling_witness :
  let this := Sample.view_props (UnknownSection 2) in
  selectedSection (state this) <> Changes
  /\ selectedSection (state this) <> History
  /\ outcome (renderContent Sample.find_by_id this)
     = Thrown "Unknown repository section".
Proof.
  intros this.
  assert (Hc : selectedSection (state this) <> Changes) by discriminate.
  assert (Hh : selectedSection (state this) <> History) by discriminate.
  split; [exact Hc|]. split; [exact Hh|].
  rewrite (proj1 (unknown_section_handling Sample.find_by_id this) Hc Hh).
  reflexivity.
Defined.

(** C4 as stated fails: with a selected section that is neither Changes
    nor History, [render] returns its element without any error, and the
    tab bar in it shows the value as the History tab. *)
Lemma unknown_section_renders :
  let this := Sample.view_props (UnknownSection 2) in
  selectedSection (state this) <> Changes
  /\ selectedSection (state this) <> History
  /\ render Sample.find_by_id this
     = ([], Returned (E_UiView (Some "repository") []
                        [renderSidebar this; E_false]))
  /\ exists tabs, renderTabs this = E_TabBar Tab_History tabs.
Proof.
  intros this. split; [discriminate|]. split; [discriminate|].
  split; [reflexivity|]. eexists. reflexivity.
Qed.

End RepositoryViewProofs.

(** ** Further properties of the changes sidebar *)

Module ChangesSidebarExtras.
Import ChangesSidebar Spec Runs ChangesSidebarProofs.

Lemma built_items_well_shaped this props (items : list IAutocompletionProvider) :
  match repo_gitHubRepository (repository props) with
  | None => items = [EmojiAutocompletionProvider (emoji (this_props this))]
  | Some g =>
      items =
      [EmojiAutocompletionProvider (emoji (this_props this));
       IssuesAutocompletionProvider (issuesStore props) g (dispatcher props);
       UserAutocompletionProvider (gitHubUserStore props) g
         (List.find
            (fun a => bool_decide (account_endpoint a = ghr_endpoint g))
            (arr_items (accounts (this_props this))))]
  end ->
  well_shaped items.
Proof.
  destruct (repo_gitHubRepository (repository props)) as [g|]; intros ->.
  - right. do 6 eexists. split; [reflexivity|].
    intros a Ha. apply (find_account_spec _ g) in Ha. apply Ha.
  - left. eauto.
Qed.

(** X1. The non-null assertion of [render] is safe, and the list has one
    of two shapes: in every state of an instance, constructed and then
    updated any number of times while other arrays are allocated, the
    field refers to an allocated array that [render] hands to the list
    component; the array is either one emoji provider, or an emoji, an
    issues and a user provider of one and the same GitHub repository, the
    user provider never bound to an account of another endpoint. *)
Theorem reachable_list_shape w :
  reachable w ->
  exists r items,
    autocompletionProviders w.1 = Some r
    /\ w.2 !! r = Some items
    /\ well_shaped items
    /\ forall toLowerCase,
         cl_autocompletionProviders (render toLowerCase w.1) = Some r.
Proof.
  induction 1 as [props h | [this h] nextProps _ IH | [this h] items' _ IH].
  - unfold constructor.
    destruct (receiveProps_build (instantiate props) props h)
      as (items & E & Hitems); [right; right; reflexivity|].
    rewrite E. simpl. exists (fresh (dom h)), items.
    split; [reflexivity|]. split; [apply lookup_insert_eq|].
    split; [|reflexivity].
    exact (built_items_well_shaped _ _ _ Hitems).
  - simpl in *. unfold update, componentWillReceiveProps.
    destruct (decide (rebuild_condition this nextProps)) as [Hc|Hn].
    + destruct (receiveProps_build this nextProps h Hc) as (items & E & Hitems).
      rewrite E. simpl. exists (fresh (dom h)), items.
      split; [reflexivity|]. split; [apply lookup_insert_eq|].
      split; [|reflexivity].
      exact (built_items_well_shaped _ _ _ Hitems).
    + rewrite (receiveProps_keep _ _ _ Hn). simpl.
      destruct IH as (r & items & Hr & Hl & Hs & _).
      exists r, items. split; [exact Hr|]. split; [exact Hl|].
      split; [exact Hs|]. intros _. exact Hr.
  - simpl in *. destruct IH as (r & items & Hr & Hl & Hs & _).
    exists r, items. split; [exact Hr|]. split.
    + rewrite lookup_insert_ne; [exact Hl|].
      intros Heq. pose proof (fresh_unallocated h) as Hf.
      rewrite Heq, Hl in Hf. discriminate.
    + split; [exact Hs|]. intros _. exact Hr.
Qed.

Lemma reachable_list_shape_witness :
  let w := update (constructor Sample.unlinked ∅).1 Sample.signed_in
                  (constructor Sample.unlinked ∅).2 in
  reachable w
  /\ exists r items,
      cl_autocompletionProviders (render ascii_toLowerCase w.1) = Some r
      /\ w.2 !! r = Some items
      /\ well_shaped items.
Proof.
  intros w.
  assert (R : reachable w)
    by exact (reach_update _ _ (reach_constructor Sample.unlinked ∅)).
  split; [exact R|].
  destruct (reachable_list_shape w R) as (r & items & _ & Hl & Hs & Hrender).
  exists r, items. split; [apply Hrender|]. split; [exact Hl|exact Hs].
Defined.

Lemma last_cons {A} (l : list A) : forall a d,
  List.last (a :: l) d = List.last l a.
Proof.
  induction l as [|b l IH]; intros a d; [reflexivity|].
  change (List.last (b :: l) d = List.last (b :: l) a).
  rewrite !IH. reflexivity.
Qed.

(** X2. Updates compose: a run of property updates each of which has the
    repository id and the accounts array of the current properties leaves
    the field and every array as they were, whatever else the updates
    change (emoji, the linked GitHub repository, the stores); after the run
    the component holds the last properties delivered. *)
Theorem stable_updates_keep_list ps : forall w,
  is_Some (autocompletionProviders w.1) ->
  Forall (keeps_identity (this_props w.1)) ps ->
  autocompletionProviders (updates w ps).1 = autocompletionProviders w.1
  /\ (updates w ps).2 = w.2
  /\ this_props (updates w ps).1 = List.last ps (this_props w.1).
Proof.
  induction ps as [|p ps IH]; intros [this h] Hsome Hall.
  - simpl. auto.
  - apply Forall_cons in Hall as [[Hid Hacc] Hall]. simpl in *.
    assert (Hn : ~ rebuild_condition this p).
    { intros [H|[H|H]]; [contradiction|contradiction|].
      rewrite H in Hsome. destruct Hsome; discriminate. }
    assert (E : update this p h
                = ({| this_props := p;
                      autocompletionProviders := autocompletionProviders this |},
                   h)).
    { unfold update, componentWillReceiveProps.
      rewrite (receiveProps_keep _ _ _ Hn). reflexivity. }
    rewrite E.
    destruct (IH ({| this_props := p;
                     autocompletionProviders := autocompletionProviders this |},
                  h)) as (H1 & H2 & H3).
    + exact Hsome.
    + simpl. eapply Forall_impl; [exact Hall|].
      intros q [Hq1 Hq2]. split; simpl; congruence.
    + simpl in *. split; [exact H1|]. split; [exact H2|].
      rewrite H3. symmetry. apply last_cons.
Qed.

(** The signed-out sidebar of an unlinked repository: the repository gets
    linked and an emoji table arrives, under the same id and accounts
    array; the list stays the single provider of the empty emoji map. *)
Lemma stable_updates_keep_list_witness :
  let w := constructor Sample.unlinked ∅ in
  let linked :=
    Sample.sidebar_props
      {| repo_id := 2; repo_path := "/home/jane/scratch";
         repo_name := "scratch";
         repo_gitHubRepository := Some Sample.welder_remote |}
      Sample.two_changes None ∅ {[ ":shipit:" := "shipit.png" ]} true
      (mkArray 7%positive []) in
  is_Some (autocompletionProviders w.1)
  /\ Forall (keeps_identity (this_props w.1)) [Sample.unlinked; linked]
  /\ providers_of (updates w [Sample.unlinked; linked])
     = Some [EmojiAutocompletionProvider ∅]
  /\ this_props (updates w [Sample.unlinked; linked]).1 = linked.
Proof.
  intros w linked.
  assert (Hs : is_Some (autocompletionProviders w.1)) by (vm_compute; eauto).
  assert (Hall : Forall (keeps_identity (this_props w.1))
                        [Sample.unlinked; linked]).
  { repeat constructor. }
  split; [exact Hs|]. split; [exact Hall|].
  destruct (stable_updates_keep_list [Sample.unlinked; linked] w Hs Hall)
    as (H1 & H2 & H3).
  split; [|exact H3].
  unfold providers_of. rewrite H1, H2. vm_compute. reflexivity.
Defined.

(** X3. At construction there is no earlier state to be stale: the list
    the constructor builds is made of the emoji map, the repository, the
    stores, the dispatcher and the accounts of the very properties it is
    given. *)
Theorem constructor_uses_own_props props (h : Heap) :
  exists items,
    providers_of (constructor props h) = Some items
    /\ head items = Some (EmojiAutocompletionProvider (emoji props))
    /\ (repo_gitHubRepository (repository props) = None ->
        length items = 1%nat)
    /\ (forall g,
           repo_gitHubRepository (repository props) = Some g ->
           items
           = [EmojiAutocompletionProvider (emoji props);
              IssuesAutocompletionProvider (issuesStore props) g
                (dispatcher props);
              UserAutocompletionProvider (gitHubUserStore props) g
                (List.find
                   (fun a => bool_decide
                               (account_endpoint a = ghr_endpoint g))
                   (arr_items (accounts props)))]).
Proof.
  unfold constructor.
  destruct (receiveProps_build (instantiate props) props h)
    as (items & E & Hitems); [right; right; reflexivity|].
  exists items. rewrite E. unfold providers_of. simpl.
  rewrite lookup_insert_eq. split; [reflexivity|].
  destruct (repo_gitHubRepository (repository props)) as [g0|];
    subst items; simpl; split; try reflexivity; split.
  - discriminate.
  - intros g [= <-]. reflexivity.
  - reflexivity.
  - discriminate.
Qed.

Lemma find_first_match {A} (test : A -> bool) (l : list A) :
  (exists x, x ∈ l /\ test x = true) ->
  exists i x,
    List.find test l = Some x
    /\ l !! i = Some x
    /\ test x = true
    /\ forall j y, (j < i)%nat -> l !! j = Some y -> test y = false.
Proof.
  induction l as [|a l IH]; intros (x & Hin & Hx).
  - inversion Hin.
  - simpl. destruct (test a) eqn:Ha.
    + exists 0%nat, a. split; [reflexivity|]. split; [reflexivity|].
      split; [exact Ha|]. intros j y Hj. lia.
    + apply elem_of_cons in Hin as [->|Hin]; [congruence|].
      destruct IH as (i & z & Hf & Hl & Hz & Hmin); [eauto|].
      exists (S i), z. split; [exact Hf|]. split; [exact Hl|].
      split; [exact Hz|]. intros [|j] y Hj Hy.
      * simpl in Hy. congruence.
      * simpl in Hy. apply (Hmin j y); [lia|exact Hy].
Qed.

(** X4. An inclusion change for a path some file of the working directory
    has: the only effect is the dispatcher's [changeFileIncluded] for the
    first file of the list with that path, with the inclusion flag as it was
    given; nothing is logged. *)
Theorem include_change_hits_first_match this path include :
  (exists f, f ∈ files (workingDirectory (changes (this_props this)))
             /\ file_path f = path) ->
  exists i file,
    files (workingDirectory (changes (this_props this))) !! i = Some file
    /\ file_path file = path
    /\ (forall j f',
           (j < i)%nat ->
           files (workingDirectory (changes (this_props this))) !! j = Some f' ->
           file_path f' <> path)
    /\ onIncludeChanged this path include
       = ([Dispatch (dispatcher (this_props this))
             (changeFileIncluded (repository (this_props this)) file include)],
          Returned tt).
Proof.
  intros (f & Hin & Hf).
  destruct (find_first_match
              (fun f => bool_decide (file_path f = path))
              (files (workingDirectory (changes (this_props this)))))
    as (i & file & Hfind & Hl & Ht & Hmin).
  { exists f. split; [exact Hin|]. apply bool_decide_eq_true_2, Hf. }
  exists i, file. split; [exact Hl|].
  split; [apply bool_decide_eq_true in Ht; exact Ht|]. split.
  - intros j f' Hj Hf'. specialize (Hmin j f' Hj Hf').
    apply bool_decide_eq_false in Hmin. exact Hmin.
  - unfold onIncludeChanged. rewrite Hfind. reflexivity.
Qed.

(** Two files under one path: the first one is the one addressed. *)
Lemma include_change_hits_first_match_witness :
  let staged := {| file_path := "README.md"; file_id := "A+README.md";
                   file_selection := All |} in
  let this :=
    instantiate
      (Sample.sidebar_props Sample.welder
         {| workingDirectory :=
              {| files := [Sample.main_ts; Sample.readme; staged] |};
            selectedFileID := None; diff := None; commitMessage := None;
            contextualCommitMessage := None; showCoAuthoredBy := false |}
         None ∅ ∅ true (mkArray 7%positive [])) in
  (exists f, f ∈ files (workingDirectory (changes (this_props this)))
             /\ file_path f = "README.md")
  /\ dispatched (trace (onIncludeChanged this "README.md" false))
     = [changeFileIncluded Sample.welder Sample.readme false].
Proof.
  intros staged this.
  assert (H : exists f,
             f ∈ files (workingDirectory (changes (this_props this)))
             /\ file_path f = "README.md").
  { exists staged. split; [|reflexivity]. simpl. set_solver. }
  split; [exact H|].
  destruct (include_change_hits_first_match this "README.md" false H)
    as (i & file & Hl & Hp & Hmin & E).
  rewrite E. simpl.
  destruct i as [|[|i]].
  - simpl in Hl. injection Hl as <-. discriminate Hp.
  - simpl in Hl. injection Hl as <-. reflexivity.
  - exfalso. apply (Hmin 1%nat Sample.readme); [lia|reflexivity|reflexivity].
Defined.

(** X5. A row click that does not come from the keyboard, a pointer click
    or a hover, has no effect at all, whatever the row. *)
Theorem pointer_click_does_nothing this row source :
  kind source <> "keyboard" ->
  onChangedItemClick this row source = ([], Returned tt).
Proof.
  intros Hk. unfold onChangedItemClick.
  rewrite (bool_decide_eq_false_2 _ Hk). reflexivity.
Qed.

Lemma pointer_click_does_nothing_witness :
  kind {| kind := "mouseclick" |} <> "keyboard"
  /\ onChangedItemClick (instantiate Sample.signed_in) 0
       {| kind := "mouseclick" |}
     = ([], Returned tt).
Proof.
  assert (H : kind {| kind := "mouseclick" |} <> "keyboard") by discriminate.
  split; [exact H|].
  exact (pointer_click_does_nothing (instantiate Sample.signed_in) 0%Z _ H).
Defined.

(** X6. Discarding one file is discarding the list of that one file: the
    two handlers agree, with and without confirmation. *)
Theorem discard_one_is_discard_all_of_one this file :
  onDiscardChanges this file = onDiscardAllChanges this [file].
Proof. reflexivity. Qed.

(** X7. Whichever handler the list invokes, with whatever arguments: it
    returns normally, it has at most one effect, it never writes to the plain
    console log, and a dispatcher call it makes goes to the dispatcher of
    the current properties and is about the repository of the current
    properties. *)
Theorem handlers_are_well_behaved this (c : HandlerCall) :
  outcome (run_handler this c) = Returned tt
  /\ (length (trace (run_handler this c)) <= 1)%nat
  /\ Forall (sidebar_effect this) (trace (run_handler this c)).
Proof.
  destruct c as [row|path include|selectAll|file|fs|pattern|path|row source];
    simpl.
  - repeat split; auto. repeat constructor.
  - unfold onIncludeChanged. destruct (List.find _ _); simpl;
      repeat split; auto; repeat constructor.
  - repeat split; auto. repeat constructor.
  - unfold onDiscardChanges.
    destruct (askForConfirmationOnDiscardChanges (this_props this)); simpl;
      repeat split; auto; repeat constructor.
  - unfold onDiscardAllChanges.
    destruct (askForConfirmationOnDiscardChanges (this_props this)); simpl;
      repeat split; auto; repeat constructor.
  - repeat split; auto. repeat constructor.
  - repeat split; auto. repeat constructor.
  - unfold onChangedItemClick, onToggleInclude.
    destruct (bool_decide (kind source = "keyboard")); simpl;
      [|repeat split; auto].
    destruct (js_index _ row); simpl;
      repeat split; auto; repeat constructor.
Qed.

End ChangesSidebarExtras.

(** ** Further properties of the repository view *)

Module RepositoryViewExtras.
Import RepositoryView Runs.

(** X8. The tab bar always has exactly the two tabs; the Changes tab is the
    selected one exactly when Changes is the selected section, and the dot
    that marks pending changes is in the bar exactly when the working
    directory has at least one file. *)
Theorem tab_bar_shape this :
  exists tab changesTab historyTab,
    renderTabs this = E_TabBar tab [changesTab; historyTab]
    /\ (tab = Tab_Changes <-> selectedSection (state this) = Changes)
    /\ (occurs is_indicator (renderTabs this) = true
        <-> files (workingDirectory (changesState (state this))) <> []).
Proof.
  unfold renderTabs. do 3 eexists. split; [reflexivity|]. split.
  - destruct (decide (selectedSection (state this) = Changes)) as [Hs|Hs].
    + rewrite (bool_decide_eq_true_2 _ Hs). tauto.
    + rewrite (bool_decide_eq_false_2 _ Hs). split; [discriminate|tauto].
  - destruct (files (workingDirectory (changesState (state this))))
      as [|f fs]; simpl.
    + destruct (bool_decide (selectedSection (state this) = Changes)); simpl;
        (split; [discriminate|congruence]).
    + destruct (bool_decide (selectedSection (state this) = Changes)); simpl;
        (split; [discriminate|reflexivity]).
Qed.

(** X9. Tab and section round trip: for a view whose selected section is
    Changes or History, clicking the tab that the tab bar shows as selected
    requests, as its only effect, the section that is already selected. *)
Theorem selected_tab_requests_selected_section this tab tabs :
  renderTabs this = E_TabBar tab tabs ->
  selectedSection (state this) = Changes
  \/ selectedSection (state this) = History ->
  onTabClicked this tab this
  = ([Dispatch (dispatcher this)
        (changeRepositorySection (repository this)
           (selectedSection (state this)))],
     Returned tt).
Proof.
  unfold renderTabs, onTabClicked. intros [= <- _] [Hs|Hs]; rewrite Hs;
    reflexivity.
Qed.

Lemma selected_tab_requests_selected_section_witness :
  let this := Sample.view_props History in
  exists tab tabs,
    renderTabs this = E_TabBar tab tabs
    /\ dispatched (trace (onTabClicked this tab this))
       = [changeRepositorySection Sample.welder History].
Proof.
  intros this. exists Tab_History. eexists. split; [reflexivity|].
  rewrite (selected_tab_requests_selected_section this Tab_History _ eq_refl
             (or_intror eq_refl)).
  reflexivity.
Defined.

(** X10. Section requests of the life cycle. A property update requests
    sections exactly when the name of the repository changes, an id or a
    path that changes under the same name being ignored; it then requests
    Changes and after it History for the incoming repository, through the
    dispatcher of the current properties. Mounting writes one line to the
    console log and makes the same two requests for its own repository. *)
Theorem lifecycle_section_requests this nextProps :
  (repo_name (repository this) = repo_name (repository nextProps) ->
   componentWillReceiveProps this nextProps = ([], Returned tt))
  /\ (repo_name (repository this) <> repo_name (repository nextProps) ->
      componentWillReceiveProps this nextProps
      = ([Dispatch (dispatcher this)
            (changeRepositorySection (repository nextProps) Changes);
          Dispatch (dispatcher this)
            (changeRepositorySection (repository nextProps) History)],
         Returned tt))
  /\ logged (trace (componentWillMount this)) = ["WTF"]
  /\ dispatched (trace (componentWillMount this))
     = [changeRepositorySection (repository this) Changes;
        changeRepositorySection (repository this) History]
  /\ outcome (componentWillMount this) = Returned tt.
Proof.
  unfold componentWillReceiveProps. split; [|split].
  - intros Hn. rewrite (bool_decide_eq_true_2 _ Hn). reflexivity.
  - intros Hn. rewrite (bool_decide_eq_false_2 _ Hn). reflexivity.
  - repeat split.
Qed.

(** The same name with another id: no request. Another name: two. *)
Lemma lifecycle_section_requests_witness :
  let this := Sample.view_props Changes in
  let same_name :=
    {| repository :=
         {| repo_id := 9; repo_path := "/tmp/welder"; repo_name := "welder";
            repo_gitHubRepository := None |};
       state := state this; dispatcher := DispatcherHandle 1;
       emoji := emoji this; sidebarWidth := 250; commitSummaryWidth := 250;
       issuesStore := issuesStore this; appStore := appStore this;
       gitHubUserStore := gitHubUserStore this;
       onViewCommitOnGitHub := onViewCommitOnGitHub this;
       imageDiffType := imageDiffType this;
       askForConfirmationOnDiscardChanges := true;
       accounts := accounts this |} in
  let other_name :=
    {| repository := Sample.scratch_repo;
       state := state this; dispatcher := DispatcherHandle 1;
       emoji := emoji this; sidebarWidth := 250; commitSummaryWidth := 250;
       issuesStore := issuesStore this; appStore := appStore this;
       gitHubUserStore := gitHubUserStore this;
       onViewCommitOnGitHub := onViewCommitOnGitHub this;
       imageDiffType := imageDiffType this;
       askForConfirmationOnDiscardChanges := true;
       accounts := accounts this |} in
  repo_name (repository this) = repo_name (repository same_name)
  /\ repo_name (repository this) <> repo_name (repository other_name)
  /\ componentWillReceiveProps this same_name = ([], Returned tt)
  /\ trace (componentWillReceiveProps this other_name)
     = [Dispatch (DispatcherHandle 0)
          (changeRepositorySection Sample.scratch_repo Changes);
        Dispatch (DispatcherHandle 0)
          (changeRepositorySection Sample.scratch_repo History)].
Proof.
  intros this same_name other_name.
  assert (Hd : repo_name (repository this)
               <> repo_name (repository other_name)) by discriminate.
  split; [reflexivity|]. split; [exact Hd|]. split.
  - exact (proj1 (lifecycle_section_requests this same_name) eq_refl).
  - rewrite (proj1 (proj2 (lifecycle_section_requests this other_name)) Hd).
    reflexivity.
Defined.

Section WithFindFile.

Variable findFileWithID :
  WorkingDirectoryStatus -> string -> option WorkingDirectoryFileChange.

(** X11. [renderContent] has no effect on console or dispatcher; it halts
    with an error exactly when the selected section is neither Changes nor
    History, and what it returns otherwise is always one of the three
    content elements. *)
Theorem content_halts_only_on_unknown_section this :
  trace (renderContent findFileWithID this) = []
  /\ ((exists msg, outcome (renderContent findFileWithID this) = Thrown msg)
      <-> selectedSection (state this) <> Changes
          /\ selectedSection (state this) <> History)
  /\ (forall element,
         outcome (renderContent findFileWithID this) = Returned element ->
         is_content element = true).
Proof.
  unfold renderContent.
  destruct (decide (selectedSection (state this) = Changes)) as [Hc|Hc].
  - rewrite (bool_decide_eq_true_2 _ Hc).
    destruct (files _) as [|f fs];
      [|destruct (match selectedFileID _ with Some _ => _ | None => _ end);
        [destruct (diff _)|]]; simpl;
      (split; [reflexivity|]; split;
       [split; [intros [msg H]; discriminate|tauto]
       |intros element [= <-]; reflexivity]).
  - rewrite (bool_decide_eq_false_2 _ Hc).
    destruct (decide (selectedSection (state this) = History)) as [Hh|Hh].
    + rewrite (bool_decide_eq_true_2 _ Hh). simpl.
      split; [reflexivity|]. split.
      * split; [intros [msg H]; discriminate|tauto].
      * intros element [= <-]. reflexivity.
    + rewrite (bool_decide_eq_false_2 _ Hh). simpl.
      split; [reflexivity|]. split.
      * split; [tauto|]. intros _. eexists. reflexivity.
      * intros element H. discriminate.
Qed.

(** X12. The content of the Changes section: the diff view of the selected
    file when the working directory is not empty, the id of the selected
    file is set and not empty, a file is found under it and a diff is
    loaded; the no-changes view as soon as one of these fails, an empty
    working directory winning over a selected file and a loaded diff. *)
Theorem changes_content this :
  selectedSection (state this) = Changes ->
  (forall i file d,
      files (workingDirectory (changesState (state this))) <> [] ->
      selectedFileID (changesState (state this)) = Some i ->
      i <> "" ->
      findFileWithID (workingDirectory (changesState (state this))) i
      = Some file ->
      diff (changesState (state this)) = Some d ->
      renderContent findFileWithID this
      = ([], Returned (E_Changes
                         {| c_repository := repository this;
                            c_dispatcher := dispatcher this;
                            c_file := file;
                            c_diff := d;
                            c_imageDiffType := imageDiffType this |})))
  /\ (files (workingDirectory (changesState (state this))) = []
      \/ selectedFileID (changesState (state this)) = None
      \/ selectedFileID (changesState (state this)) = Some ""
      \/ (exists i,
             selectedFileID (changesState (state this)) = Some i
             /\ findFileWithID (workingDirectory (changesState (state this))) i
                = None)
      \/ diff (changesState (state this)) = None ->
      renderContent findFileWithID this = ([], Returned E_NoChanges)).
Proof.
  intros Hs. unfold renderContent. rewrite (bool_decide_eq_true_2 _ Hs).
  split.
  - intros i file d Hfiles -> Hi -> ->.
    destruct (files _) as [|f fs]; [contradiction|].
    destruct i; [contradiction|]. reflexivity.
  - intros [->|[->|[->|[(i & -> & Hnone)|Hd]]]].
    + reflexivity.
    + destruct (files _); reflexivity.
    + destruct (files _); reflexivity.
    + destruct i; simpl; [|rewrite Hnone]; destruct (files _); reflexivity.
    + rewrite Hd.
      destruct (files _);
        [|destruct (match selectedFileID _ with Some _ => _ | None => _ end)];
        reflexivity.
Qed.

End WithFindFile.

Lemma changes_content_witness :
  let this := Sample.view_props Changes in
  selectedSection (state this) = Changes
  /\ (exists p, renderContent Sample.find_by_id this
                = ([], Returned (E_Changes p))
                /\ c_file p = Sample.readme).
Proof.
  intros this. split; [reflexivity|].
  destruct (changes_content Sample.find_by_id this eq_refl) as [H _].
  eexists. split.
  - apply (H "M+README.md" Sample.readme (DiffHandle 0));
      [discriminate|reflexivity|discriminate|reflexivity|reflexivity].
  - reflexivity.
Defined.




End RepositoryViewExtras.

(** ** The sidebar under the view *)

Module MountingExtras.
Import ChangesSidebar Spec Runs ChangesSidebarProofs.

(** X15. Mounting: the sidebar of a view is always constructed, into a
    reachable state, and its provider list is made of the emoji map of the
    view and, for a linked repository, of the account found in the accounts
    of the view. *)
Theorem mount_builds_from_view (this : RepositoryView.IRepositoryProps)
    (h : Heap) :
  exists w items,
    mount this h = Some w
    /\ reachable w
    /\ providers_of w = Some items
    /\ head items
       = Some (EmojiAutocompletionProvider (RepositoryView.emoji this))
    /\ (forall g,
           repo_gitHubRepository (RepositoryView.repository this) = Some g ->
           items !! 2%nat
           = Some (UserAutocompletionProvider
                     (RepositoryView.gitHubUserStore this) g
                     (List.find
                        (fun a => bool_decide
                                    (account_endpoint a = ghr_endpoint g))
                        (arr_items (RepositoryView.accounts this))))).
Proof.
  unfold mount, RepositoryView.renderChangesSidebar. simpl.
  match goal with |- context [constructor ?p h] => set (props := p) end.
  destruct (receiveProps_build (instantiate props) props h)
    as (items & E & Hitems); [right; right; reflexivity|].
  exists (constructor props h), items.
  split; [reflexivity|]. split; [apply reach_constructor|].
  unfold constructor. rewrite E. unfold providers_of. simpl.
  rewrite lookup_insert_eq. split; [reflexivity|].
  subst props. simpl in Hitems.
  destruct (repo_gitHubRepository (RepositoryView.repository this)) as [g0|];
    subst items; split; try reflexivity.
  - intros g [= <-]. reflexivity.
  - discriminate.
Qed.

Lemma constructor_keeps_props props (h : Heap) :
  this_props (constructor props h).1 = props.
Proof.
  unfold constructor.
  destruct (receiveProps_build (instantiate props) props h)
    as (items & E & _); [right; right; reflexivity|].
  rewrite E. reflexivity.
Qed.

(** X16. Rendering the view again does not disturb the sidebar: when the
    sidebar holds the properties one rendering of the view gave it, and the
    view is rendered with a repository of the same id and the same accounts
    array, whatever else changed, the update lets the provider list be. *)
Theorem rerender_reuses_list (this this' : RepositoryView.IRepositoryProps)
    w nextProps :
  reachable w ->
  sidebar_props_of (RepositoryView.renderChangesSidebar this)
  = Some (this_props w.1) ->
  sidebar_props_of (RepositoryView.renderChangesSidebar this')
  = Some nextProps ->
  repo_id (RepositoryView.repository this')
  = repo_id (RepositoryView.repository this) ->
  arr_ref (RepositoryView.accounts this')
  = arr_ref (RepositoryView.accounts this) ->
  reused w (update w.1 nextProps w.2).
Proof.
  intros Hreach Hcur Hnext Hid Hacc. destruct w as [c h]. simpl in *.
  injection Hcur as Hcur. injection Hnext as Hnext.
  assert (Hn : ~ rebuild_condition c nextProps).
  { unfold rebuild_condition. rewrite <- Hcur, <- Hnext. simpl.
    intros [H|[H|H]]; [congruence|congruence|].
    destruct (reachable_allocated _ Hreach) as (r & Hr & _).
    simpl in Hr. congruence. }
  unfold update, componentWillReceiveProps.
  rewrite (receiveProps_keep _ _ _ Hn). split; reflexivity.
Qed.

(** Mounted on Changes, rendered again on History. *)
Lemma rerender_reuses_list_witness :
  let this := Sample.view_props Changes in
  let this' := Sample.view_props History in
  exists w nextProps,
    mount this ∅ = Some w
    /\ sidebar_props_of (RepositoryView.renderChangesSidebar this')
       = Some nextProps
    /\ reused w (update w.1 nextProps w.2).
Proof.
  intros this this'.
  destruct (mount_builds_from_view this ∅) as (w & items & Hm & Hreach & _).
  exists w. eexists. split; [exact Hm|]. split; [reflexivity|].
  apply (rerender_reuses_list this this' w _ Hreach);
    [|reflexivity|reflexivity|reflexivity].
  unfold mount in Hm.
  destruct (sidebar_props_of (RepositoryView.renderChangesSidebar this))
    as [p|]; [|discriminate].
  injection Hm as <-. rewrite constructor_keeps_props. reflexivity.
Defined.

Lemma update_installs_props this nextProps (h : Heap) :
  this_props (update this nextProps h).1 = nextProps.
Proof.
  unfold update. destruct (componentWillReceiveProps this nextProps h).
  reflexivity.
Qed.

(** X17. A rebuilt list lags one update behind: when an update with
    properties [p1] is followed by an update with properties [p2] that
    rebuilds the list, the new list has the emoji map of [p1] and the
    account found in the accounts of [p1], together with the linked
    repository and the stores of [p2]. *)
Theorem rebuilt_list_lags_one_update this p1 p2 (h : Heap) :
  rebuild_condition (update this p1 h).1 p2 ->
  exists items,
    providers_of (update (update this p1 h).1 p2 (update this p1 h).2)
    = Some items
    /\ head items = Some (EmojiAutocompletionProvider (emoji p1))
    /\ (forall g,
           repo_gitHubRepository (repository p2) = Some g ->
           items !! 2%nat
           = Some (UserAutocompletionProvider (gitHubUserStore p2) g
                     (List.find
                        (fun a => bool_decide
                                    (account_endpoint a = ghr_endpoint g))
                        (arr_items (accounts p1))))).
Proof.
  intros Hc.
  pose proof (update_installs_props this p1 h) as Hp.
  destruct (update this p1 h) as [c1 h1]. simpl in *.
  destruct (receiveProps_build c1 p2 h1 Hc) as (items & E & Hitems).
  exists items. unfold update, componentWillReceiveProps. rewrite E.
  unfold providers_of. simpl. rewrite lookup_insert_eq.
  split; [reflexivity|]. rewrite Hp in Hitems.
  destruct (repo_gitHubRepository (repository p2)) as [g0|];
    subst items; split; try reflexivity.
  - intros g [= <-]. reflexivity.
  - discriminate.
Qed.

(** Signing in: the update that brings the account rebuilds the list
    without it; the account is bound only by the next rebuild, here when
    the accounts array is replaced once more. *)
Lemma rebuilt_list_lags_one_update_witness :
  let w0 := constructor Sample.signed_out ∅ in
  let again :=
    Sample.sidebar_props Sample.welder Sample.two_changes (Some Sample.jane)
      ∅ ∅ false (mkArray 9%positive [Sample.jane_account]) in
  let w1 := update w0.1 Sample.signed_in w0.2 in
  rebuild_condition w1.1 again
  /\ (exists items,
         providers_of w1 = Some items
         /\ items !! 2%nat
            = Some (UserAutocompletionProvider (GitHubUserStoreHandle 0)
                      Sample.welder_remote None))
  /\ (exists items,
         providers_of (update w1.1 again w1.2) = Some items
         /\ items !! 2%nat
            = Some (UserAutocompletionProvider (GitHubUserStoreHandle 0)
                      Sample.welder_remote (Some Sample.jane_account))).
Proof.
  intros w0 again w1.
  assert (Hc : rebuild_condition w1.1 again).
  { right; left. unfold w1. rewrite update_installs_props. simpl.
    discriminate. }
  split; [exact Hc|]. split.
  - eexists. split; [vm_compute; reflexivity|reflexivity].
  - destruct (rebuilt_list_lags_one_update w0.1 Sample.signed_in again w0.2 Hc)
      as (items & Hp & _ & Hu).
    exists items. split; [exact Hp|].
    exact (Hu Sample.welder_remote eq_refl).
Defined.

End MountingExtras.
